(** * WingmanGPT: the command-line tool that rewrites a message and texts it

    A shallow embedding of the two versions of the program,
    [src/WingmanGPT/__main__.py] (module [Old]) and [src/src/__main__.py]
    (module [New]), with the Python built-ins they call (module [Py]).

    Modelling choices.
    - A Python [str] is a Rocq [string]; a character is a code point below
      256, so the tables of [isdigit], [lower] and [repr] are those of
      Python on that range.
    - An exception is a value of [exn]; a function that can raise returns a
      [result].
    - The collaborators (files, the chat service, the terminal, the shell)
      are the fields of a [world]; what the program does to them is the
      list of [event]s it produces. *)

From Stdlib Require Import String Ascii List Bool Arith ZArith Lia.
Import ListNotations.
Open Scope string_scope.

(** ** Python built-ins *)

Module Py.

(** What click hands over for an option: [None], a [str], or (for a
    function called directly) some other object. *)
Inductive value : Type :=
| VNone
| VStr (s : string)
| VInt (z : Z)
| VBool (b : bool).

Inductive exn : Type :=
| Exception (msg : string)
| KeyError (key : string)
| TypeError (msg : string)
| Foreign (text : string).
(* [Foreign text]: an exception raised by a collaborator, [text] being
   its [str()]. *)

Inductive result (A : Type) : Type :=
| Ok (a : A)
| Raise (e : exn).
Arguments Ok {A} a.
Arguments Raise {A} e.

Definition bind {A B} (r : result A) (k : A -> result B) : result B :=
  match r with
  | Ok a => k a
  | Raise e => Raise e
  end.

(** The characters that cannot be written inside a literal. *)
Definition nl : string := String "010"%char EmptyString.
Definition tab : string := String "009"%char EmptyString.
Definition dq : string := String "034"%char EmptyString.

Definition is_empty (s : string) : bool :=
  match s with
  | EmptyString => true
  | String _ _ => false
  end.

(** [isinstance(v, str)] and [v] is not the empty string. *)
Definition nonempty_str (v : value) : option string :=
  match v with
  | VStr s => if is_empty s then None else Some s
  | _ => None
  end.

(** [s[start:stop]] with Python's treatment of negative and
    out-of-range indices. *)
Definition norm_index (len i : Z) : Z :=
  if (i <? 0)%Z then Z.max 0 (i + len) else Z.min i len.

Definition slice (s : string) (start stop : Z) : string :=
  let len := Z.of_nat (String.length s) in
  let a := norm_index len start in
  let b := norm_index len stop in
  substring (Z.to_nat a) (Z.to_nat (b - a)) s.

(** [sep.join(l)] *)
Definition join (sep : string) (l : list string) : string :=
  String.concat sep l.

(** Iterating over a [str] yields its characters, each a [str] of
    length one. *)
Definition chars (s : string) : list string :=
  map (fun c => String c EmptyString) (list_ascii_of_string s).

Definition code (c : ascii) : nat := nat_of_ascii c.

Definition between (lo hi n : nat) : bool :=
  ((lo <=? n) && (n <=? hi))%nat.

(** [str.isdigit]: below 256 the digits are 0-9 and the superscripts
    U+00B2, U+00B3 and U+00B9. *)
Definition isdigit_char (c : ascii) : bool :=
  between 48 57 (code c) || (code c =? 178)%nat || (code c =? 179)%nat
  || (code c =? 185)%nat.

Definition isdigit (s : string) : bool :=
  negb (is_empty s) && forallb isdigit_char (list_ascii_of_string s).

Definition is_ascii_digit (c : ascii) : bool := between 48 57 (code c).

(** [str.lower]: below 256 the upper-case letters are A-Z and
    U+00C0-U+00DE without U+00D7; each is 32 below its lower case. *)
Definition lower_char (c : ascii) : ascii :=
  if between 65 90 (code c)
     || (between 192 222 (code c) && negb (code c =? 215)%nat)
  then ascii_of_nat (code c + 32)
  else c.

Fixpoint lower (s : string) : string :=
  match s with
  | EmptyString => EmptyString
  | String c r => String (lower_char c) (lower r)
  end.

(** [s.replace(old, new)] for an [old] of length one. *)
Fixpoint replace (old : ascii) (new : string) (s : string) : string :=
  match s with
  | EmptyString => EmptyString
  | String c r =>
      if (c =? old)%char then new ++ replace old new r
      else String c (replace old new r)
  end.

Fixpoint contains (c : ascii) (s : string) : bool :=
  match s with
  | EmptyString => false
  | String d r => (d =? c)%char || contains c r
  end.

(** [repr] of a [str]. *)
Definition hex_digit (n : nat) : string :=
  substring n 1 "0123456789abcdef".

Definition printable (n : nat) : bool :=
  negb ((n <? 32)%nat || between 127 160 n || (n =? 173)%nat).

Definition repr_char (quote c : ascii) : string :=
  let n := code c in
  if (c =? quote)%char || (c =? "\")%char then String "\" (String c EmptyString)
  else if (n =? 9)%nat then "\t"
  else if (n =? 10)%nat then "\n"
  else if (n =? 13)%nat then "\r"
  else if printable n then String c EmptyString
  else "\x" ++ hex_digit (n / 16) ++ hex_digit (n mod 16).

Fixpoint repr_body (quote : ascii) (s : string) : string :=
  match s with
  | EmptyString => EmptyString
  | String c r => repr_char quote c ++ repr_body quote r
  end.

Definition repr (s : string) : string :=
  let quote :=
    if contains "'" s && negb (contains "034" s) then "034"%char
    else "'"%char in
  String quote (repr_body quote s ++ String quote EmptyString).

(** [str(e)] *)
Definition str_exn (e : exn) : string :=
  match e with
  | Exception msg => msg
  | KeyError key => repr key
  | TypeError msg => msg
  | Foreign text => text
  end.

(** [shlex.quote], with its pattern [[^\w@%+=:,./-]] under [re.ASCII]. *)
Definition safe_char (c : ascii) : bool :=
  between 97 122 (code c) || between 65 90 (code c)
  || between 48 57 (code c) || contains c "_@%+=:,./-".

Fixpoint find_unsafe (s : string) : bool :=
  match s with
  | EmptyString => false
  | String c r => negb (safe_char c) || find_unsafe r
  end.

(** [s.replace("'", "'\"'\"'")], what [shlex.quote] puts between its
    quotes. *)
Definition escaped (s : string) : string :=
  replace "'" ("'" ++ dq ++ "'" ++ dq ++ "'") s.

Definition shlex_quote (s : string) : string :=
  if is_empty s then "''"
  else if negb (find_unsafe s) then s
  else "'" ++ escaped s ++ "'".

(** A [dict] from [str] to [str]: insertion-ordered, and assigning to a
    key that is present keeps its place. *)
Definition dict : Type := list (string * string).

Fixpoint dict_set (d : dict) (k v : string) : dict :=
  match d with
  | [] => [(k, v)]
  | (k', v') :: r =>
      if k' =? k then (k', v) :: r else (k', v') :: dict_set r k v
  end.

Fixpoint dict_get (d : dict) (k : string) : option string :=
  match d with
  | [] => None
  | (k', v') :: r => if k' =? k then Some v' else dict_get r k
  end.

(** [k in d] *)
Definition dict_in (k : string) (d : dict) : bool :=
  match dict_get d k with
  | Some _ => true
  | None => false
  end.

(** [d[k]] *)
Definition dict_item (d : dict) (k : string) : result string :=
  match dict_get d k with
  | Some v => Ok v
  | None => Raise (KeyError k)
  end.

Definition dict_keys (d : dict) : list string := map fst d.

(** [for x in l: d[key x] = val x] *)
Definition fill {A} (key val : A -> string) (d : dict) (l : list A)
  : dict :=
  fold_left (fun d x => dict_set d (key x) (val x)) l d.

(** [{key x: val x for x in l}] *)
Definition comprehension {A} (key val : A -> string) (l : list A) : dict :=
  fill key val [] l.

End Py.

Import Py.

Notation "x <- r ;; k" := (bind r (fun x => k))
  (at level 61, r at next level, right associativity).

(** ** The collaborators *)

(** The value of [prefix] and of [suffix] in [prompts.json]: the
    dataclass annotates them [str], and [json.load] passes on whatever
    the file holds, a string or an array of strings. *)
Inductive text : Type :=
| TStr (s : string)
| TList (l : list string).

(** What [json.load] finds in [prompts.json]; [None] is a key that is
    absent. *)
Record mode_json : Type := {
  j_name : option string;
  j_description : option string;
  j_modifier : option string
}.

Record prompts_json : Type := {
  j_prefix : option text;
  j_suffix : option text;
  j_modes : option (list mode_json);
  j_default_mode : option string
}.

Record world : Type := {
  (* prompts.json, when it exists *)
  prompts_file : option prompts_json;
  (* a text file of the working directory, when it exists *)
  read_text : string -> option string;
  (* Chatbot(config={"access_token": t}).ask(p): the messages it yields,
     or the str() of what it raises *)
  chatbot_ask : string -> string -> string + list string;
  (* the line typed at input(); None at end of input *)
  stdin : option string;
  (* subprocess.run(command, shell=True, check=c): None when it returns,
     or the str() of what it raises *)
  subprocess_run : string -> bool -> option string
}.

Inductive event : Type :=
| Print (line : string)
| Ask (access_token prompt : string)
| Input (prompt : string)
| Run (command : string).

(** A computation that talks to the collaborators: the events it
    produced, and how it ended. *)
Definition io (A : Type) : Type := (list event * result A)%type.

Definition ret {A} (a : A) : io A := ([], Ok a).

Definition throw {A} (e : exn) : io A := ([], Raise e).

Definition lift {A} (r : result A) : io A := ([], r).

Definition seq {A B} (m : io A) (k : A -> io B) : io B :=
  match m with
  | (t, Ok a) => let (t', r) := k a in ((t ++ t')%list, r)
  | (t, Raise e) => (t, Raise e)
  end.

(** [try: m  except Exception as e: h e] *)
Definition catch {A} (m : io A) (h : exn -> io A) : io A :=
  match m with
  | (t, Raise e) => let (t', r) := h e in ((t ++ t')%list, r)
  | (t, Ok a) => (t, Ok a)
  end.

Notation "x <~ m ;; k" := (seq m (fun x => k))
  (at level 61, m at next level, right associativity).
Notation "m ;;> k" := (seq m (fun _ => k))
  (at level 61, right associativity).

Definition print (s : string) : io unit := ([Print s], Ok tt).

Definition input (w : world) (prompt : string) : io string :=
  ([Input prompt],
   match stdin w with
   | Some line => Ok line
   | None => Raise (Foreign "EOF when reading a line")
   end).

Definition ask (w : world) (access_token prompt : string)
  : io (list string) :=
  ([Ask access_token prompt],
   match chatbot_ask w access_token prompt with
   | inr messages => Ok messages
   | inl err => Raise (Foreign err)
   end).

Definition run (w : world) (command : string) (check : bool) : io unit :=
  ([Run command],
   match subprocess_run w command check with
   | None => Ok tt
   | Some err => Raise (Foreign err)
   end).

(** [d[key]] on the parsed file. *)
Definition field {A} (o : option A) (key : string) : result A :=
  match o with
  | Some a => Ok a
  | None => Raise (KeyError key)
  end.

(** [sep.join(x)] for [x] a [str] (joined character by character) or a
    list of [str]. *)
Definition join_text (sep : string) (x : text) : string :=
  match x with
  | TStr s => join sep (chars s)
  | TList l => join sep l
  end.

(** The loop [for char in number: if not char.isdigit(): raise ...]. *)
Fixpoint check_digits (cs : list string) : result unit :=
  match cs with
  | [] => Ok tt
  | char :: rest =>
      if negb (isdigit char) then Raise (Exception "Invalid phone number")
      else check_digits rest
  end.

(** The loop over [chatbot.ask(PROMPT)] that keeps the message of the last
    item, starting from the empty string. *)
Definition last_message (messages : list string) : string :=
  fold_left (fun _ message => message) messages EmptyString.

(** ** src/WingmanGPT/__main__.py *)

Module Old.

Record ResponseMode : Type := {
  NAME : string;
  PROMPT_MODIFICATION : string
}.

Record PromptData : Type := {
  PREFIX : text;
  SUFFIX : text;
  MODES : list ResponseMode;
  DEFAULT_MODE : string
}.

Record WingmanGPT : Type := {
  phone_number : string;
  token : string;
  message : string;
  wants_to_confirm : bool;
  prompt_data : PromptData;
  mode_modification : string
}.

Fixpoint load_modes (entries : list mode_json)
  : result (list ResponseMode) :=
  match entries with
  | [] => Ok []
  | mode :: rest =>
      name <- field (j_name mode) "name" ;;
      modifier <- field (j_modifier mode) "modifier" ;;
      modes <- load_modes rest ;;
      Ok ({| NAME := name; PROMPT_MODIFICATION := modifier |} :: modes)
  end.

(** [PromptData(data["prefix"], data["suffix"], modes)]: the fourth
    field keeps the default of the dataclass. *)
Definition get_prompt_data (w : world) : result PromptData :=
  match prompts_file w with
  | None => Raise (Exception "prompts.json does not exist")
  | Some data =>
      entries <- field (j_modes data) "modes" ;;
      modes <- load_modes entries ;;
      prefix <- field (j_prefix data) "prefix" ;;
      suffix <- field (j_suffix data) "suffix" ;;
      Ok {| PREFIX := prefix; SUFFIX := suffix; MODES := modes;
            DEFAULT_MODE := "ROMANTIC" |}
  end.

Definition get_token (w : world) (token : value) : result string :=
  match nonempty_str token with
  | Some t => Ok t
  | None =>
      match read_text w "token" with
      | Some tok =>
          if negb (is_empty tok) then Ok tok
          else Raise (Exception "No token provided or found in token file")
      | None => Raise (Exception "No token provided or found in token file")
      end
  end.

Definition get_phone_number (number : value) : result string :=
  match number with
  | VStr s =>
      if negb (String.length s =? 10)%nat
      then Raise (Exception "Invalid phone number")
      else _ <- check_digits (chars s) ;; Ok s
  | _ => Raise (Exception "Invalid phone number")
  end.

Definition get_message (w : world) (message : value) : result string :=
  match nonempty_str message with
  | Some m => Ok m
  | None =>
      match read_text w "message.txt" with
      | Some msg =>
          if negb (is_empty msg) then Ok msg
          else Raise
                 (Exception "No message provided or found in message.txt")
      | None =>
          Raise (Exception "No message provided or found in message.txt")
      end
  end.

Definition available_modes (pd : PromptData) : dict :=
  comprehension NAME PROMPT_MODIFICATION (MODES pd).

Definition invalid_mode (mode_str : string) (keys : list string) : string :=
  "Invalid mode: " ++ mode_str ++ nl ++ " Available modes: "
  ++ join ", " keys.

Definition get_mode_modification (pd : PromptData)
  (mode_str : option string) : result string :=
  match mode_str with
  | None => dict_item (available_modes pd) (DEFAULT_MODE pd)
  | Some s =>
      if is_empty s then dict_item (available_modes pd) (DEFAULT_MODE pd)
      else if negb (dict_in s (available_modes pd))
      then Raise (Exception
                    (invalid_mode s (dict_keys (available_modes pd))))
      else dict_item (available_modes pd) s
  end.

(** [True if not confirm else confirm] *)
Definition init (w : world) (number : value) (confirm : bool)
  (token message : value) (mode : option string) : result WingmanGPT :=
  phone <- get_phone_number number ;;
  tok <- get_token w token ;;
  msg <- get_message w message ;;
  let wants := if negb confirm then true else confirm in
  pd <- get_prompt_data w ;;
  modification <- get_mode_modification pd mode ;;
  Ok {| phone_number := phone; token := tok; message := msg;
        wants_to_confirm := wants; prompt_data := pd;
        mode_modification := modification |}.

(** [PROMPT += x] with [PROMPT] a [str]. *)
Definition add (PROMPT : string) (x : text) : result string :=
  match x with
  | TStr s => Ok (PROMPT ++ s)
  | TList _ =>
      Raise (TypeError
               ("can only concatenate str (not " ++ dq ++ "list" ++ dq
                ++ ") to str"))
  end.

Definition get_prompt (self : WingmanGPT) : result string :=
  let PROMPT := EmptyString in
  PROMPT <- add PROMPT (PREFIX (prompt_data self)) ;;
  let PROMPT :=
    PROMPT ++ " Here is the message: " ++ dq ++ message self ++ dq ++ "." in
  let PROMPT :=
    PROMPT ++ " Here is how I want you to modify the message: " ++ dq
    ++ mode_modification self ++ dq ++ "." in
  PROMPT <- add PROMPT (SUFFIX (prompt_data self)) ;;
  Ok PROMPT.

Definition get_response (w : world) (self : WingmanGPT) : io string :=
  PROMPT <~ lift (get_prompt self) ;;
  let token := replace "010" EmptyString (token self) in
  messages <~ ask w token PROMPT ;;
  let response := last_message messages in
  ret (slice response 1 (-1)).

Definition prepared_response (response : string) : string :=
  dq ++ slice (shlex_quote response) 1 (-1) ++ dq.

Definition send_message (w : world) (self : WingmanGPT)
  (response : string) : io unit :=
  let command :=
    "osascript -e 'tell application " ++ dq ++ "Messages" ++ dq
    ++ " to send " ++ prepared_response response ++ " to buddy " ++ dq
    ++ phone_number self ++ dq ++ "'" in
  run w command false.

(** The confirmation: [true] when the message is to be sent. *)
Definition confirmation (w : world) (self : WingmanGPT)
  (response : string) : io bool :=
  if wants_to_confirm self then
    print ("********" ++ nl ++ "Message: " ++ response ++ nl ++ "********")
    ;;> confirm <~ input w "Send message? (y/n): " ;;
    if negb (lower confirm =? "y")
    then print "Message not sent." ;;> ret false
    else ret true
  else ret true.

Definition execute (w : world) (self : WingmanGPT) : io unit :=
  got <~ catch (response <~ get_response w self ;; ret (Some response))
               (fun e =>
                  print (str_exn e)
                  ;;> print "Failed to get response from ChatGPT API"
                  ;;> ret None) ;;
  match got with
  | None => ret tt
  | Some response =>
      catch (proceed <~ confirmation w self response ;;
             if proceed : bool
             then send_message w self response ;;> print "Message Sent."
             else ret tt)
            (fun _ => print "Failed to send message.")
  end.

Definition main (w : world) (number : value) (confirm : bool)
  (token message : value) (mode : option string) : io unit :=
  catch (tgpt <~ lift (init w number confirm token message mode) ;;
         execute w tgpt)
        (fun e => print ("Error occurred: " ++ str_exn e)).

End Old.

(** ** src/src/__main__.py *)

Module New.

Record ResponseMode : Type := {
  NAME : string;
  DESCRIPTION : string;
  PROMPT_MODIFICATION : string
}.

Record PromptData : Type := {
  PREFIX : text;
  SUFFIX : text;
  MODES : list ResponseMode;
  DEFAULT_MODE : string
}.

Definition show_modes (self : PromptData) : io unit :=
  fold_left
    (fun out mode =>
       out ;;> print (tab ++ NAME mode ++ ": " ++ DESCRIPTION mode))
    (MODES self) (print "AVAILABLE MODES:").

Record WingmanGPT : Type := {
  phone_number : string;
  token : string;
  message : string;
  wants_to_confirm : bool;
  prompt_data : PromptData;
  mode_modification : string
}.

Definition get_token (w : world) (token : value) : result string :=
  match nonempty_str token with
  | Some t => Ok t
  | None =>
      match read_text w "token" with
      | Some tok =>
          if negb (is_empty tok) then Ok tok
          else Raise (Exception "No token provided or found in token file")
      | None => Raise (Exception "No token provided or found in token file")
      end
  end.

Definition get_phone_number (number : value) : result string :=
  match number with
  | VStr s =>
      if negb (String.length s =? 10)%nat
      then Raise (Exception "Invalid phone number")
      else _ <- check_digits (chars s) ;; Ok s
  | _ => Raise (Exception "Invalid phone number")
  end.

Definition get_message (w : world) (message : value) : result string :=
  match nonempty_str message with
  | Some m => Ok m
  | None =>
      match read_text w "message.txt" with
      | Some msg =>
          if negb (is_empty msg) then Ok msg
          else Raise
                 (Exception "No message provided or found in message.txt")
      | None =>
          Raise (Exception "No message provided or found in message.txt")
      end
  end.

Definition available_modes (pd : PromptData) : dict :=
  comprehension NAME PROMPT_MODIFICATION (MODES pd).

(** The message is written over two lines of the source, joined by a
    backslash: the indentation of the second line is part of it. *)
Definition continuation : string := "                            ".

Definition invalid_mode (mode_str : string) (keys : list string) : string :=
  "Invalid mode: " ++ mode_str ++ nl ++ " Available modes: "
  ++ continuation ++ join ", " keys.

Definition get_mode_modification (pd : PromptData)
  (mode_str : option string) : result string :=
  match mode_str with
  | None => dict_item (available_modes pd) (DEFAULT_MODE pd)
  | Some s =>
      if is_empty s then dict_item (available_modes pd) (DEFAULT_MODE pd)
      else if negb (dict_in s (available_modes pd))
      then Raise (Exception
                    (invalid_mode s (dict_keys (available_modes pd))))
      else dict_item (available_modes pd) s
  end.

Definition init (w : world) (number : value) (noconfirm : bool)
  (token message : value) (mode : option string) (pd : PromptData)
  : result WingmanGPT :=
  phone <- get_phone_number number ;;
  tok <- get_token w token ;;
  msg <- get_message w message ;;
  let wants := negb noconfirm in
  modification <- get_mode_modification pd mode ;;
  Ok {| phone_number := phone; token := tok; message := msg;
        wants_to_confirm := wants; prompt_data := pd;
        mode_modification := modification |}.

Definition get_prompt (self : WingmanGPT) : string :=
  let PROMPT := EmptyString in
  let PROMPT := PROMPT ++ join_text " " (PREFIX (prompt_data self)) in
  let PROMPT :=
    PROMPT ++ " Here is the message: " ++ dq ++ message self ++ dq ++ "." in
  let PROMPT :=
    PROMPT ++ " Here is how I want you to modify the message: " in
  let PROMPT := PROMPT ++ dq ++ mode_modification self ++ dq ++ "." in
  let PROMPT := PROMPT ++ join_text " " (SUFFIX (prompt_data self)) in
  PROMPT.

Definition get_response (w : world) (self : WingmanGPT) : io string :=
  let PROMPT := get_prompt self in
  let token := replace "010" EmptyString (token self) in
  messages <~ ask w token PROMPT ;;
  let response := last_message messages in
  ret (slice response 1 (-1)).

Definition prepared_response (response : string) : string :=
  dq ++ slice (shlex_quote response) 1 (-1) ++ dq.

Definition send_message (w : world) (self : WingmanGPT)
  (response : string) : io unit :=
  let command :=
    "osascript -e 'tell application " ++ dq ++ "Messages" ++ dq
    ++ " to send " in
  let command :=
    command ++ prepared_response response ++ " to buddy " ++ dq
    ++ phone_number self ++ dq ++ "'" in
  catch (run w command true)
        (fun e =>
           throw (Exception
                    ("Failed to send message: " ++ nl ++ nl ++ str_exn e))).

(** The confirmation: [true] when the message is to be sent. *)
Definition confirmation (w : world) (self : WingmanGPT)
  (response : string) : io bool :=
  if wants_to_confirm self then
    print ("********" ++ nl ++ "Message: " ++ response ++ nl ++ "********")
    ;;> confirm <~ input w "Send message? (y/n): " ;;
    if negb (lower confirm =? "y")
    then print "Message not sent." ;;> ret false
    else ret true
  else ret true.

Definition execute (w : world) (self : WingmanGPT) : io unit :=
  got <~ catch (response <~ get_response w self ;; ret (Some response))
               (fun e =>
                  print (str_exn e)
                  ;;> print "Failed to get response from ChatGPT API"
                  ;;> ret None) ;;
  match got with
  | None => ret tt
  | Some response =>
      catch (proceed <~ confirmation w self response ;;
             if proceed : bool
             then send_message w self response ;;> print "Message Sent."
             else ret tt)
            (fun e =>
               print ("Failed to send message. " ++ nl ++ nl ++ str_exn e))
  end.

Fixpoint load_modes (entries : list mode_json)
  : result (list ResponseMode) :=
  match entries with
  | [] => Ok []
  | mode :: rest =>
      name <- field (j_name mode) "name" ;;
      description <- field (j_description mode) "description" ;;
      modifier <- field (j_modifier mode) "modifier" ;;
      modes <- load_modes rest ;;
      Ok ({| NAME := name; DESCRIPTION := description;
             PROMPT_MODIFICATION := modifier |} :: modes)
  end.

Definition get_prompt_data (w : world) : result PromptData :=
  match prompts_file w with
  | None => Raise (Exception "prompts.json does not exist")
  | Some data =>
      entries <- field (j_modes data) "modes" ;;
      modes <- load_modes entries ;;
      prefix <- field (j_prefix data) "prefix" ;;
      suffix <- field (j_suffix data) "suffix" ;;
      default_mode <- field (j_default_mode data) "default_mode" ;;
      Ok {| PREFIX := prefix; SUFFIX := suffix; MODES := modes;
            DEFAULT_MODE := default_mode |}
  end.

Definition main (w : world) (number : value) (noconfirm : bool)
  (token message : value) (mode : option string) (show : bool)
  : io unit :=
  match get_prompt_data w with
  | Raise e => print ("Error occurred: " ++ str_exn e)
  | Ok pd =>
      if show then show_modes pd
      else
        match number with
        | VNone => print "Phone number is required."
        | _ =>
            catch (tgpt <~ lift (init w number noconfirm token message
                                   mode pd) ;;
                   execute w tgpt)
                  (fun e => print ("Error occurred: " ++ str_exn e))
        end
  end.

End New.

(** ** Observations on a run *)

Definition trace {A} (m : io A) : list event := fst m.

Definition is_run (e : event) : bool :=
  match e with
  | Run _ => true
  | _ => false
  end.

Definition is_ask (e : event) : bool :=
  match e with
  | Ask _ _ => true
  | _ => false
  end.

(** The run handed a command to the shell. *)
Definition dispatched (t : list event) : bool := existsb is_run t.

(** A mode argument that is absent or empty. *)
Definition omitted (mode : option string) : bool :=
  match mode with
  | None => true
  | Some s => is_empty s
  end.

(** The validation of a phone number in the words of the specification,
    for a given class of digits: ten characters, all of them digits. *)
Definition ten_digits (digit : ascii -> bool) (s : string) : bool :=
  (String.length s =? 10)%nat && forallb digit (list_ascii_of_string s).

Definition phone_spec (digit : ascii -> bool) (number : value)
  : result string :=
  match number with
  | VStr s =>
      if ten_digits digit s then Ok s
      else Raise (Exception "Invalid phone number")
  | _ => Raise (Exception "Invalid phone number")
  end.

(** ** The scenario of the specification, and sample collaborators *)

(** The template whose only mode is ROMANTIC, which is also the default. *)
Definition romantic_json (prefix suffix : text) (description : option string)
  : prompts_json :=
  {| j_prefix := Some prefix;
     j_suffix := Some suffix;
     j_modes := Some [ {| j_name := Some "ROMANTIC";
                          j_description := description;
                          j_modifier := Some "make it romantic" |} ];
     j_default_mode := Some "ROMANTIC" |}.

Definition romantic (prefix suffix : text) (description : string)
  : New.PromptData :=
  {| New.PREFIX := prefix;
     New.SUFFIX := suffix;
     New.MODES := [ {| New.NAME := "ROMANTIC";
                       New.DESCRIPTION := description;
                       New.PROMPT_MODIFICATION := "make it romantic" |} ];
     New.DEFAULT_MODE := "ROMANTIC" |}.

Definition scenario_prompt : string :=
  "Rewrite: Here is the message: " ++ dq ++ "hi" ++ dq
  ++ ". Here is how I want you to modify the message: " ++ dq
  ++ "make it romantic" ++ dq ++ ".Done.".

(** A working directory with [prompts.json] only, a chat service that
    answers every prompt with one quoted sentence, an operator who types
    [answer], and a shell that runs every command. *)
Definition sample_world (data : prompts_json) (answer : string) : world :=
  {| prompts_file := Some data;
     read_text := fun _ => None;
     chatbot_ask := fun _ _ => inr [ "'hello there'" ];
     stdin := Some answer;
     subprocess_run := fun _ _ => None |}.

(** The same, with a chat service whose answer is one quoted word and an
    operator who confirms. *)
Definition one_word_world : world :=
  {| prompts_file :=
       Some (romantic_json (TList [ "Rewrite:" ]) (TList [ "Done." ])
               (Some "Sweet"));
     read_text := fun _ => None;
     chatbot_ask := fun _ _ => inr [ "'hello'" ];
     stdin := Some "y";
     subprocess_run := fun _ _ => None |}.

(** Ten times the superscript two, U+00B2. *)
Definition superscripts : string :=
  String.concat EmptyString (repeat (String "178"%char EmptyString) 10).

(** The objects of the scenario, as [__init__] builds them. *)
Definition sample_new (confirm : bool) : New.WingmanGPT :=
  {| New.phone_number := "1234567890";
     New.token := "secret";
     New.message := "hi";
     New.wants_to_confirm := confirm;
     New.prompt_data :=
       romantic (TList [ "Rewrite:" ]) (TList [ "Done." ]) "Sweet";
     New.mode_modification := "make it romantic" |}.

Definition sample_old : Old.WingmanGPT :=
  {| Old.phone_number := "1234567890";
     Old.token := "secret";
     Old.message := "hi";
     Old.wants_to_confirm := true;
     Old.prompt_data :=
       {| Old.PREFIX := TStr "Rewrite:";
          Old.SUFFIX := TStr "Done.";
          Old.MODES := [ {| Old.NAME := "ROMANTIC";
                            Old.PROMPT_MODIFICATION := "make it romantic" |} ];
          Old.DEFAULT_MODE := "ROMANTIC" |};
     Old.mode_modification := "make it romantic" |}.

(** ** Further observations *)

Definition is_input (e : event) : bool :=
  match e with
  | Input _ => true
  | _ => false
  end.

(** How many events of a kind a run produced. *)
Definition count (kind : event -> bool) (t : list event) : nat :=
  List.length (filter kind t).

(** A run that asks the chat service at most once, the operator at most
    once and the shell at most once, and the shell only in a run that
    opened with the request to the chat service. *)
Definition disciplined (t : list event) : Prop :=
  count is_ask t <= 1
  /\ count is_input t <= 1
  /\ count is_run t <= 1
  /\ (dispatched t = true ->
      exists access_token prompt rest,
        t = Ask access_token prompt :: rest).

(** The command line that [__send_message] builds around a body. *)
Definition osascript (body phone : string) : string :=
  "osascript -e 'tell application " ++ dq ++ "Messages" ++ dq ++ " to send "
  ++ body ++ " to buddy " ++ dq ++ phone ++ dq ++ "'".


(** The file that holds a template of the later version. *)
Definition mode_to_json (m : New.ResponseMode) : mode_json :=
  {| j_name := Some (New.NAME m);
     j_description := Some (New.DESCRIPTION m);
     j_modifier := Some (New.PROMPT_MODIFICATION m) |}.

Definition dump (pd : New.PromptData) : prompts_json :=
  {| j_prefix := Some (New.PREFIX pd);
     j_suffix := Some (New.SUFFIX pd);
     j_modes := Some (map mode_to_json (New.MODES pd));
     j_default_mode := Some (New.DEFAULT_MODE pd) |}.

(** A template of the later version, as the earlier version holds it. *)
Definition forget_mode (m : New.ResponseMode) : Old.ResponseMode :=
  {| Old.NAME := New.NAME m;
     Old.PROMPT_MODIFICATION := New.PROMPT_MODIFICATION m |}.

Definition forget (pd : New.PromptData) : Old.PromptData :=
  {| Old.PREFIX := New.PREFIX pd;
     Old.SUFFIX := New.SUFFIX pd;
     Old.MODES := map forget_mode (New.MODES pd);
     Old.DEFAULT_MODE := New.DEFAULT_MODE pd |}.

(** A working directory whose only file is [token]. *)
Definition token_file_world (content : string) : world :=
  {| prompts_file := None;
     read_text := fun path => if path =? "token" then Some content else None;
     chatbot_ask := fun _ _ => inr [];
     stdin := None;
     subprocess_run := fun _ _ => None |}.

(** The chat service is down; the shell refuses every command. *)
Definition failing_world : world :=
  {| prompts_file :=
       Some (romantic_json (TList [ "Rewrite:" ]) (TList [ "Done." ])
               (Some "Sweet"));
     read_text := fun _ => None;
     chatbot_ask := fun _ _ => inl "no network";
     stdin := Some "y";
     subprocess_run := fun _ _ => Some "exit status 1" |}.

(** The chat service answers, the operator confirms, the shell refuses. *)
Definition refusing_world : world :=
  {| prompts_file :=
       Some (romantic_json (TList [ "Rewrite:" ]) (TList [ "Done." ])
               (Some "Sweet"));
     read_text := fun _ => None;
     chatbot_ask := fun _ _ => inr [ "'hello there'" ];
     stdin := Some "y";
     subprocess_run := fun _ _ => Some "exit status 1" |}.

(** ** Strings and slices *)

Lemma is_empty_true (s : string) : is_empty s = true <-> s = EmptyString.
Proof. destruct s; simpl; split; intro H; congruence. Qed.

Lemma is_empty_false (s : string) : is_empty s = false <-> s <> EmptyString.
Proof. destruct s; simpl; split; intro H; congruence. Qed.

Lemma nonempty_str_some (v : value) (s : string) :
  nonempty_str v = Some s <-> v = VStr s /\ s <> EmptyString.
Proof.
  destruct v as [ | t | z | b ]; simpl;
    try (split; [ discriminate | intros [H _]; discriminate H ]).
  destruct t as [ | c t ]; simpl; split.
  - discriminate.
  - intros [H Hne]. inversion H; subst. now elim Hne.
  - intro H. inversion H; subst. split; [ reflexivity | discriminate ].
  - intros [H _]. now inversion H.
Qed.

Lemma substring_0_length (n : nat) (s : string) :
  String.length (substring 0 n s) = Nat.min n (String.length s).
Proof.
  revert n. induction s as [ | c s IH ]; intros [ | n ]; simpl; auto.
Qed.

(** A non-empty string is its prefix without the last character, then
    that character. *)
Lemma substring_0_but_last (c : ascii) (s : string) :
  exists b,
    String c s
    = substring 0 (String.length s) (String c s) ++ String b EmptyString.
Proof.
  revert c. induction s as [ | d s IH ]; intro c.
  - exists c. reflexivity.
  - destruct (IH d) as [b Hb]. exists b.
    change (String.length (String d s)) with (S (String.length s)).
    change (substring 0 (S (String.length s)) (String c (String d s)))
      with (String c (substring 0 (String.length s) (String d s))).
    change (String c (String d s)
            = String c (substring 0 (String.length s) (String d s)
                        ++ String b EmptyString)).
    f_equal. exact Hb.
Qed.

Lemma slice_ends_empty : slice EmptyString 1 (-1) = EmptyString.
Proof. reflexivity. Qed.

Lemma slice_ends_cons (a : ascii) (r : string) :
  slice (String a r) 1 (-1) = substring 0 (String.length r - 1) r.
Proof.
  unfold slice, norm_index.
  change (String.length (String a r)) with (S (String.length r)).
  change (1 <? 0)%Z with false. change (-1 <? 0)%Z with true. cbv iota.
  rewrite Nat2Z.inj_succ.
  rewrite Z.min_l by lia. rewrite Z.max_r by lia.
  change (Z.to_nat 1) with 1.
  replace (Z.to_nat (-1 + Z.succ (Z.of_nat (String.length r)) - 1))
    with (String.length r - 1) by lia.
  reflexivity.
Qed.

Lemma slice_ends_length (s : string) :
  Z.of_nat (String.length (slice s 1 (-1)))
  = Z.max 0 (Z.of_nat (String.length s) - 2).
Proof.
  destruct s as [ | a r ].
  - reflexivity.
  - rewrite slice_ends_cons, substring_0_length.
    change (String.length (String a r)) with (S (String.length r)). lia.
Qed.

Lemma slice_ends_shape (s : string) :
  2 <= String.length s ->
  exists a b, s = String a (slice s 1 (-1) ++ String b EmptyString).
Proof.
  destruct s as [ | a [ | c r ] ]; simpl String.length; try lia.
  intros _. rewrite slice_ends_cons.
  destruct (substring_0_but_last c r) as [b Hb].
  exists a, b. f_equal.
  change (String.length (String c r) - 1) with (String.length r - 0).
  rewrite Nat.sub_0_r.
  exact Hb.
Qed.

Lemma last_cons_default {A} (l : list A) (a d d' : A) :
  last (a :: l) d = last (a :: l) d'.
Proof.
  revert a. induction l as [ | b l IH ]; intro a.
  - reflexivity.
  - change (last (b :: l) d = last (b :: l) d'). apply IH.
Qed.

Lemma last_message_last (messages : list string) :
  last_message messages = last messages EmptyString.
Proof.
  unfold last_message. generalize EmptyString.
  induction messages as [ | m l IH ]; intro d.
  - reflexivity.
  - change (fold_left (fun _ message : string => message) l m
            = last (m :: l) d).
    rewrite IH. destruct l as [ | b l ].
    + reflexivity.
    + change (last (b :: l) m = last (b :: l) d). apply last_cons_default.
Qed.

(** ** The completion adapter *)

(** C9. For every raw completion response (the last message the chat
    service yields, or the empty string when it yields none), the adapter
    of either version returns the response without its first and its last
    character: the result has length max(0, length - 2), and a response of
    two or more characters is its first character, the result, and its
    last character. *)
Theorem get_response_strips_ends (w : world) (messages : list string) :
  let raw := last messages EmptyString in
  let stripped := slice raw 1 (-1) in
  (forall self : New.WingmanGPT,
      let token := replace "010" EmptyString (New.token self) in
      chatbot_ask w token (New.get_prompt self) = inr messages ->
      New.get_response w self
      = ([Ask token (New.get_prompt self)], Ok stripped))
  /\ (forall (self : Old.WingmanGPT) (PROMPT : string),
         let token := replace "010" EmptyString (Old.token self) in
         Old.get_prompt self = Ok PROMPT ->
         chatbot_ask w token PROMPT = inr messages ->
         Old.get_response w self = ([Ask token PROMPT], Ok stripped))
  /\ Z.of_nat (String.length stripped)
     = Z.max 0 (Z.of_nat (String.length raw) - 2)
  /\ (2 <= String.length raw ->
      exists a b, raw = String a (stripped ++ String b EmptyString)).
Proof.
  intros raw stripped. repeat split.
  - intros self token H.
    unfold New.get_response, ask, seq, ret. fold token. rewrite H.
    rewrite last_message_last. reflexivity.
  - intros self PROMPT token HP H.
    unfold Old.get_response, ask, seq, ret, lift. rewrite HP.
    fold token. rewrite H. rewrite last_message_last. reflexivity.
  - apply slice_ends_length.
  - apply slice_ends_shape.
Qed.

Lemma get_response_strips_ends_witness :
  let w :=
    sample_world (romantic_json (TStr "Rewrite:") (TStr "Done.") None) "n" in
  New.get_response w (sample_new true)
  = ([Ask "secret" scenario_prompt], Ok "hello there")
  /\ Old.get_response w sample_old
     = ([Ask "secret" scenario_prompt], Ok "hello there")
  /\ exists a b,
      "'hello there'" = String a ("hello there" ++ String b EmptyString).
Proof.
  intro w. split; [ | split ].
  - exact (proj1 (get_response_strips_ends w [ "'hello there'" ])
             (sample_new true) eq_refl).
  - exact (proj1 (proj2 (get_response_strips_ends w [ "'hello there'" ]))
             sample_old scenario_prompt eq_refl eq_refl).
  - apply (proj2 (proj2 (proj2
             (get_response_strips_ends w [ "'hello there'" ])))).
    simpl. lia.
Defined.

(** ** The phone number *)

Lemma check_digits_chars (s : string) :
  check_digits (chars s)
  = if forallb isdigit_char (list_ascii_of_string s) then Ok tt
    else Raise (Exception "Invalid phone number").
Proof.
  induction s as [ | c s IH ].
  - reflexivity.
  - change (chars (String c s)) with (String c EmptyString :: chars s).
    change (list_ascii_of_string (String c s))
      with (c :: list_ascii_of_string s).
    assert (Hc : isdigit (String c EmptyString) = isdigit_char c).
    { unfold isdigit. simpl. apply andb_true_r. }
    simpl check_digits. simpl forallb. rewrite Hc.
    destruct (isdigit_char c); simpl.
    + exact IH.
    + reflexivity.
Qed.

Lemma new_get_phone_number_spec (number : value) :
  New.get_phone_number number = phone_spec isdigit_char number.
Proof.
  destruct number as [ | s | z | b ]; try reflexivity.
  unfold New.get_phone_number, phone_spec, ten_digits.
  destruct (String.length s =? 10)%nat; simpl.
  - rewrite check_digits_chars.
    destruct (forallb isdigit_char (list_ascii_of_string s)); reflexivity.
  - reflexivity.
Qed.

Lemma ascii_digit_isdigit (c : ascii) :
  is_ascii_digit c = true -> isdigit_char c = true.
Proof.
  unfold is_ascii_digit, isdigit_char. intros ->. reflexivity.
Qed.

Lemma ten_ascii_digits (s : string) :
  ten_digits is_ascii_digit s = true -> ten_digits isdigit_char s = true.
Proof.
  unfold ten_digits. rewrite !andb_true_iff, !forallb_forall.
  intros [Hlen Hall]. split; [ exact Hlen | ].
  intros c Hc. apply ascii_digit_isdigit, Hall, Hc.
Qed.

Lemma old_get_phone_number_spec (number : value) :
  Old.get_phone_number number = phone_spec isdigit_char number.
Proof.
  destruct number as [ | s | z | b ]; try reflexivity.
  unfold Old.get_phone_number, phone_spec, ten_digits.
  destruct (String.length s =? 10)%nat; simpl.
  - rewrite check_digits_chars.
    destruct (forallb isdigit_char (list_ascii_of_string s)); reflexivity.
  - reflexivity.
Qed.

(** C10. The validators of the phone number in the two versions give the
    same result on every input: the same string returned, or the same
    exception raised. *)
Theorem get_phone_number_versions_agree (number : value) :
  Old.get_phone_number number = New.get_phone_number number.
Proof.
  rewrite old_get_phone_number_spec, new_get_phone_number_spec.
  reflexivity.
Qed.

(** C3, as the code has it. The validation accepts a value exactly when
    it is a string of ten characters that all satisfy [str.isdigit], and
    then returns it unchanged; every string of ten ASCII digits is
    accepted; every other value fails with the exception "Invalid phone
    number". *)
Theorem get_phone_number_accepts_iff (number : value) :
  New.get_phone_number number = phone_spec isdigit_char number
  /\ Old.get_phone_number number = phone_spec isdigit_char number
  /\ (forall s,
         New.get_phone_number number = Ok s
         <-> number = VStr s /\ String.length s = 10
             /\ forallb isdigit_char (list_ascii_of_string s) = true)
  /\ (forall s,
         number = VStr s -> ten_digits is_ascii_digit s = true ->
         New.get_phone_number number = Ok s).
Proof.
  split; [ apply new_get_phone_number_spec | ].
  split; [ apply old_get_phone_number_spec | ].
  split.
  - intro s. rewrite new_get_phone_number_spec.
    destruct number as [ | t | z | b ]; simpl;
      try (split; [ discriminate | intros [H _]; discriminate H ]).
    unfold ten_digits.
    destruct (String.length t =? 10)%nat eqn:Hlen; simpl.
    + apply Nat.eqb_eq in Hlen.
      destruct (forallb isdigit_char (list_ascii_of_string t)) eqn:Hall.
      * split.
        -- intro H. inversion H; subst. auto.
        -- intros [H _]. now inversion H.
      * split; [ discriminate | ].
        intros [H [_ Hd]]. inversion H; subst. congruence.
    + apply Nat.eqb_neq in Hlen. split; [ discriminate | ].
      intros [H [Hl _]]. inversion H; subst. contradiction.
  - intros s -> Hs. rewrite new_get_phone_number_spec. simpl.
    now rewrite (ten_ascii_digits s Hs).
Qed.

Lemma get_phone_number_accepts_iff_witness :
  ten_digits is_ascii_digit "1234567890" = true
  /\ New.get_phone_number (VStr "1234567890") = Ok "1234567890".
Proof.
  split.
  - reflexivity.
  - apply (proj2 (proj2 (proj2
             (get_phone_number_accepts_iff (VStr "1234567890"))))).
    + reflexivity.
    + reflexivity.
Defined.

(** C3, as stated, fails: ten superscript twos are accepted by both
    versions, and none of them is an ASCII digit. *)
Lemma get_phone_number_accepts_superscripts :
  New.get_phone_number (VStr superscripts) = Ok superscripts
  /\ Old.get_phone_number (VStr superscripts) = Ok superscripts
  /\ String.length superscripts = 10
  /\ forallb is_ascii_digit (list_ascii_of_string superscripts) = false
  /\ New.get_phone_number (VStr superscripts)
     <> phone_spec is_ascii_digit (VStr superscripts).
Proof.
  repeat split; try reflexivity.
  vm_compute. discriminate.
Qed.

(** ** The body of the message to dispatch *)

Lemma append_length (s t : string) :
  String.length (s ++ t) = String.length s + String.length t.
Proof. induction s as [ | c s IH ]; simpl; congruence. Qed.

Lemma substring_0_append (s t : string) :
  substring 0 (String.length s) (s ++ t) = s.
Proof.
  induction s as [ | c s IH ]; simpl.
  - destruct t; reflexivity.
  - now rewrite IH.
Qed.

(** Between single quotes, the slice gives back what was quoted. *)
Lemma slice_ends_quoted (s : string) :
  slice ("'" ++ s ++ "'") 1 (-1) = s.
Proof.
  change ("'" ++ s ++ "'") with (String "'" (s ++ "'")).
  rewrite slice_ends_cons, append_length. simpl String.length.
  replace (String.length s + 1 - 1) with (String.length s) by lia.
  apply substring_0_append.
Qed.

(** On a text with a character that the shell could interpret, and on
    the empty text, the body is the escaped text between double quotes. *)
Lemma prepared_response_quoted (response : string) :
  is_empty response = true \/ find_unsafe response = true ->
  New.prepared_response response = dq ++ escaped response ++ dq
  /\ Old.prepared_response response = dq ++ escaped response ++ dq.
Proof.
  intros [H | H].
  - apply is_empty_true in H. subst. split; reflexivity.
  - assert (Hs : slice (shlex_quote response) 1 (-1) = escaped response).
    { unfold shlex_quote. rewrite H. simpl negb.
      destruct (is_empty response) eqn:He.
      - apply is_empty_true in He. subst. discriminate H.
      - apply slice_ends_quoted. }
    unfold New.prepared_response, Old.prepared_response.
    rewrite Hs. split; reflexivity.
Qed.

(** On a text of safe characters only, [shlex.quote] adds no quotes, and
    the body is the text without its first and last characters. *)
Lemma prepared_response_unquoted (response : string) :
  is_empty response = false -> find_unsafe response = false ->
  shlex_quote response = response
  /\ New.prepared_response response = dq ++ slice response 1 (-1) ++ dq
  /\ Old.prepared_response response = dq ++ slice response 1 (-1) ++ dq.
Proof.
  intros He Hu.
  assert (Hq : shlex_quote response = response).
  { unfold shlex_quote. now rewrite He, Hu. }
  unfold New.prepared_response, Old.prepared_response. rewrite Hq.
  repeat split.
Qed.

(** C2, at a completion of one safe word. [shlex.quote] returns "hello"
    as it is, without quotes of its own, and the body handed to the
    dispatch command is "ell" between double quotes: the first and the
    last character of the text are lost, also in the command of a whole
    run. *)
Theorem prepared_response_safe_word :
  shlex_quote "hello" = "hello"
  /\ escaped "hello" = "hello"
  /\ New.prepared_response "hello" = dq ++ "ell" ++ dq
  /\ Old.prepared_response "hello" = dq ++ "ell" ++ dq
  /\ New.prepared_response "hello" <> dq ++ escaped "hello" ++ dq
  /\ trace (New.main one_word_world (VStr "1234567890") true (VStr "secret")
              (VStr "hi") None false)
     = [ Ask "secret" scenario_prompt;
         Run ("osascript -e 'tell application " ++ dq ++ "Messages" ++ dq
              ++ " to send " ++ dq ++ "ell" ++ dq ++ " to buddy " ++ dq
              ++ "1234567890" ++ dq ++ "'");
         Print "Message Sent." ].
Proof.
  repeat split. vm_compute. discriminate.
Qed.

(** ** The dictionary of modes *)

Lemma dict_get_set (d : dict) (k v k' : string) :
  dict_get (dict_set d k v) k'
  = if k =? k' then Some v else dict_get d k'.
Proof.
  induction d as [ | [k0 v0] d IH ]; simpl.
  - reflexivity.
  - destruct (k0 =? k) eqn:E0; simpl.
    + apply String.eqb_eq in E0. subst k0.
      destruct (k =? k'); reflexivity.
    + destruct (k0 =? k') eqn:E1.
      * apply String.eqb_eq in E1. subst k0.
        rewrite String.eqb_sym, E0. reflexivity.
      * exact IH.
Qed.

Lemma dict_keys_set (d : dict) (k v k' : string) :
  In k' (dict_keys (dict_set d k v)) <-> k' = k \/ In k' (dict_keys d).
Proof.
  induction d as [ | [k0 v0] d IH ]; simpl.
  - intuition congruence.
  - destruct (k0 =? k) eqn:E0; simpl.
    + apply String.eqb_eq in E0. subst k0. intuition congruence.
    + rewrite IH. intuition congruence.
Qed.

Lemma dict_keys_set_nodup (d : dict) (k v : string) :
  NoDup (dict_keys d) -> NoDup (dict_keys (dict_set d k v)).
Proof.
  induction d as [ | [k0 v0] d IH ]; simpl; intro H.
  - constructor; [ intros [] | constructor ].
  - inversion H as [ | x l Hnotin Hnd ]; subst.
    destruct (k0 =? k) eqn:E0; simpl.
    + constructor; assumption.
    + constructor.
      * intro Hin. apply dict_keys_set in Hin. destruct Hin as [-> | Hin].
        -- rewrite String.eqb_refl in E0. discriminate.
        -- contradiction.
      * apply IH, Hnd.
Qed.

Lemma dict_get_none (d : dict) (k : string) :
  dict_get d k = None <-> ~ In k (dict_keys d).
Proof.
  induction d as [ | [k0 v0] d IH ]; simpl.
  - intuition.
  - destruct (k0 =? k) eqn:E0.
    + apply String.eqb_eq in E0. subst. intuition discriminate.
    + apply String.eqb_neq in E0. rewrite IH. intuition.
Qed.

Section Comprehension.

Variable A : Type.
Variables key val : A -> string.

Lemma fill_cons (x : A) (l : list A) (d : dict) :
  fill key val d (x :: l) = fill key val (dict_set d (key x) (val x)) l.
Proof. reflexivity. Qed.

Lemma fill_keys (l : list A) (d : dict) (k : string) :
  In k (dict_keys (fill key val d l))
  <-> In k (map key l) \/ In k (dict_keys d).
Proof.
  revert d. induction l as [ | x l IH ]; intro d.
  - simpl. intuition.
  - rewrite fill_cons, IH, dict_keys_set. simpl.
    intuition congruence.
Qed.

Lemma fill_nodup (l : list A) (d : dict) :
  NoDup (dict_keys d) -> NoDup (dict_keys (fill key val d l)).
Proof.
  revert d. induction l as [ | x l IH ]; intros d H.
  - exact H.
  - rewrite fill_cons. apply IH, dict_keys_set_nodup, H.
Qed.

(** A key that no later element carries keeps its value. *)
Lemma fill_get_old (l : list A) (d : dict) (k : string) :
  ~ In k (map key l) -> dict_get (fill key val d l) k = dict_get d k.
Proof.
  revert d. induction l as [ | x l IH ]; intros d H.
  - reflexivity.
  - simpl in H. rewrite fill_cons, IH by tauto.
    rewrite dict_get_set.
    destruct (key x =? k) eqn:E; [ | reflexivity ].
    apply String.eqb_eq in E. tauto.
Qed.

(** The value of a key is that of the last element that carries it. *)
Lemma fill_get_last (before after : list A) (x : A) (d : dict) :
  ~ In (key x) (map key after) ->
  dict_get (fill key val d (before ++ x :: after)%list) (key x)
  = Some (val x).
Proof.
  intro H. revert d. induction before as [ | y before IH ]; intro d.
  - change (([] ++ x :: after)%list) with (x :: after).
    rewrite fill_cons, fill_get_old by exact H.
    rewrite dict_get_set, String.eqb_refl. reflexivity.
  - change (((y :: before) ++ x :: after)%list)
      with (y :: (before ++ x :: after)%list).
    rewrite fill_cons. apply IH.
Qed.

Lemma last_occurrence (l : list A) (k : string) :
  In k (map key l) ->
  exists before x after,
    l = (before ++ x :: after)%list /\ key x = k
    /\ ~ In k (map key after).
Proof.
  induction l as [ | y l IH ]; simpl; intro H.
  - contradiction.
  - destruct (in_dec string_dec k (map key l)) as [Hin | Hnot].
    + destruct (IH Hin) as (before & x & after & -> & Hk & Hafter).
      exists (y :: before), x, after. auto.
    + destruct H as [H | H]; [ | contradiction ].
      exists [], y, l. auto.
Qed.

Lemma comprehension_keys (l : list A) (k : string) :
  In k (dict_keys (comprehension key val l)) <-> In k (map key l).
Proof.
  unfold comprehension. rewrite fill_keys. simpl. tauto.
Qed.

Lemma comprehension_nodup (l : list A) :
  NoDup (dict_keys (comprehension key val l)).
Proof. apply fill_nodup. constructor. Qed.

Lemma comprehension_absent (l : list A) (k : string) :
  ~ In k (map key l) -> dict_in k (comprehension key val l) = false.
Proof.
  intro H. unfold dict_in, comprehension.
  now rewrite fill_get_old by exact H.
Qed.

End Comprehension.

(** ** The resolution of the mode *)

Lemma new_get_prompt_data_default (w : world) (pd : New.PromptData) :
  New.get_prompt_data w = Ok pd ->
  exists data,
    prompts_file w = Some data
    /\ j_default_mode data = Some (New.DEFAULT_MODE pd).
Proof.
  unfold New.get_prompt_data.
  destruct (prompts_file w) as [ [prefix suffix modes default] | ];
    [ | discriminate ].
  simpl. destruct modes as [ entries | ]; simpl; [ | discriminate ].
  destruct (New.load_modes entries); simpl; [ | discriminate ].
  destruct prefix, suffix, default; simpl; try discriminate.
  intro H. inversion H; subst. simpl. eauto.
Qed.

Lemma old_get_prompt_data_default (w : world) (pd : Old.PromptData) :
  Old.get_prompt_data w = Ok pd -> Old.DEFAULT_MODE pd = "ROMANTIC".
Proof.
  unfold Old.get_prompt_data.
  destruct (prompts_file w) as [ [prefix suffix modes default] | ];
    [ | discriminate ].
  simpl. destruct modes as [ entries | ]; simpl; [ | discriminate ].
  destruct (Old.load_modes entries); simpl; [ | discriminate ].
  destruct prefix, suffix; simpl; try discriminate.
  intro H. inversion H; subst. reflexivity.
Qed.

Lemma new_default_item (pd : New.PromptData) (mode : option string) :
  omitted mode = true ->
  New.get_mode_modification pd mode
  = dict_item (New.available_modes pd) (New.DEFAULT_MODE pd).
Proof.
  destruct mode as [ s | ]; simpl; [ | reflexivity ].
  intros ->. reflexivity.
Qed.

Lemma old_default_item (pd : Old.PromptData) (mode : option string) :
  omitted mode = true ->
  Old.get_mode_modification pd mode
  = dict_item (Old.available_modes pd) (Old.DEFAULT_MODE pd).
Proof.
  destruct mode as [ s | ]; simpl; [ | reflexivity ].
  intros ->. reflexivity.
Qed.

(** C4. When the mode argument is absent or empty, the resolution
    returns the prompt modification of the mode named by the default-mode
    field of the template, the last one of that name should several modes
    carry it; the later version loads that field from the key
    [default_mode] of the file, the earlier one leaves it at the default
    of the dataclass. *)
Theorem omitted_mode_resolves_default (mode : option string) :
  omitted mode = true ->
  (forall pd : New.PromptData,
      In (New.DEFAULT_MODE pd) (map New.NAME (New.MODES pd)) ->
      exists before m after,
        New.MODES pd = (before ++ m :: after)%list
        /\ New.NAME m = New.DEFAULT_MODE pd
        /\ ~ In (New.DEFAULT_MODE pd) (map New.NAME after)
        /\ New.get_mode_modification pd mode
           = Ok (New.PROMPT_MODIFICATION m))
  /\ (forall (w : world) (pd : New.PromptData),
         New.get_prompt_data w = Ok pd ->
         exists data,
           prompts_file w = Some data
           /\ j_default_mode data = Some (New.DEFAULT_MODE pd))
  /\ (forall pd : Old.PromptData,
         In (Old.DEFAULT_MODE pd) (map Old.NAME (Old.MODES pd)) ->
         exists before m after,
           Old.MODES pd = (before ++ m :: after)%list
           /\ Old.NAME m = Old.DEFAULT_MODE pd
           /\ ~ In (Old.DEFAULT_MODE pd) (map Old.NAME after)
           /\ Old.get_mode_modification pd mode
              = Ok (Old.PROMPT_MODIFICATION m))
  /\ (forall (w : world) (pd : Old.PromptData),
         Old.get_prompt_data w = Ok pd -> Old.DEFAULT_MODE pd = "ROMANTIC").
Proof.
  intro Hmode. repeat split.
  - intros pd Hin.
    destruct (last_occurrence _ New.NAME _ _ Hin)
      as (before & m & after & Hmodes & Hname & Hafter).
    exists before, m, after. repeat split; try assumption.
    rewrite (new_default_item pd mode Hmode).
    unfold dict_item, New.available_modes, comprehension.
    rewrite Hmodes, <- Hname, fill_get_last; [ reflexivity | ].
    now rewrite Hname.
  - apply new_get_prompt_data_default.
  - intros pd Hin.
    destruct (last_occurrence _ Old.NAME _ _ Hin)
      as (before & m & after & Hmodes & Hname & Hafter).
    exists before, m, after. repeat split; try assumption.
    rewrite (old_default_item pd mode Hmode).
    unfold dict_item, Old.available_modes, comprehension.
    rewrite Hmodes, <- Hname, fill_get_last; [ reflexivity | ].
    now rewrite Hname.
  - apply old_get_prompt_data_default.
Qed.

Lemma omitted_mode_resolves_default_witness :
  omitted None = true
  /\ exists before m after,
      New.MODES (romantic (TList [ "Rewrite:" ]) (TList [ "Done." ]) "Sweet")
      = (before ++ m :: after)%list
      /\ New.NAME m = "ROMANTIC"
      /\ ~ In "ROMANTIC" (map New.NAME after)
      /\ New.get_mode_modification
           (romantic (TList [ "Rewrite:" ]) (TList [ "Done." ]) "Sweet") None
         = Ok (New.PROMPT_MODIFICATION m).
Proof.
  split.
  - reflexivity.
  - apply (proj1 (omitted_mode_resolves_default None eq_refl)
             (romantic (TList [ "Rewrite:" ]) (TList [ "Done." ]) "Sweet")).
    simpl. left. reflexivity.
Defined.

Lemma new_unknown_mode (pd : New.PromptData) (mode_str : string) :
  mode_str <> EmptyString ->
  ~ In mode_str (map New.NAME (New.MODES pd)) ->
  New.get_mode_modification pd (Some mode_str)
  = Raise (Exception
             (New.invalid_mode mode_str
                (dict_keys (New.available_modes pd)))).
Proof.
  intros Hne Hnot. unfold New.get_mode_modification.
  apply is_empty_false in Hne. rewrite Hne.
  unfold New.available_modes at 1.
  now rewrite comprehension_absent by exact Hnot.
Qed.

Lemma old_unknown_mode (pd : Old.PromptData) (mode_str : string) :
  mode_str <> EmptyString ->
  ~ In mode_str (map Old.NAME (Old.MODES pd)) ->
  Old.get_mode_modification pd (Some mode_str)
  = Raise (Exception
             (Old.invalid_mode mode_str
                (dict_keys (Old.available_modes pd)))).
Proof.
  intros Hne Hnot. unfold Old.get_mode_modification.
  apply is_empty_false in Hne. rewrite Hne.
  unfold Old.available_modes at 1.
  now rewrite comprehension_absent by exact Hnot.
Qed.

(** C5. For a mode name that is given and matches no configured mode,
    the resolution raises an exception whose message ends with the
    configured mode names separated by commas: every configured name is in
    that list, nothing else is, and no name is there twice. *)
Theorem unknown_mode_lists_names (mode_str : string) :
  mode_str <> EmptyString ->
  (forall pd : New.PromptData,
      ~ In mode_str (map New.NAME (New.MODES pd)) ->
      exists names,
        New.get_mode_modification pd (Some mode_str)
        = Raise (Exception
                   ("Invalid mode: " ++ mode_str ++ nl ++ " Available modes: "
                    ++ New.continuation ++ join ", " names))
        /\ NoDup names
        /\ forall n, In n names <-> In n (map New.NAME (New.MODES pd)))
  /\ (forall pd : Old.PromptData,
         ~ In mode_str (map Old.NAME (Old.MODES pd)) ->
         exists names,
           Old.get_mode_modification pd (Some mode_str)
           = Raise (Exception
                      ("Invalid mode: " ++ mode_str ++ nl
                       ++ " Available modes: " ++ join ", " names))
           /\ NoDup names
           /\ forall n, In n names <-> In n (map Old.NAME (Old.MODES pd))).
Proof.
  intro Hne. split; intros pd Hnot.
  - exists (dict_keys (New.available_modes pd)). split; [ | split ].
    + exact (new_unknown_mode pd mode_str Hne Hnot).
    + apply comprehension_nodup.
    + intro n. apply comprehension_keys.
  - exists (dict_keys (Old.available_modes pd)). split; [ | split ].
    + exact (old_unknown_mode pd mode_str Hne Hnot).
    + apply comprehension_nodup.
    + intro n. apply comprehension_keys.
Qed.

Lemma unknown_mode_lists_names_witness :
  "FUNNY" <> EmptyString
  /\ exists names,
      New.get_mode_modification
        (romantic (TList [ "Rewrite:" ]) (TList [ "Done." ]) "Sweet")
        (Some "FUNNY")
      = Raise (Exception
                 ("Invalid mode: FUNNY" ++ nl ++ " Available modes: "
                  ++ New.continuation ++ join ", " names))
      /\ NoDup names
      /\ forall n, In n names <-> In n [ "ROMANTIC" ].
Proof.
  assert (Hne : "FUNNY" <> EmptyString) by discriminate.
  split.
  - exact Hne.
  - apply (proj1 (unknown_mode_lists_names "FUNNY" Hne)
             (romantic (TList [ "Rewrite:" ]) (TList [ "Done." ]) "Sweet")).
    simpl. intros [H | []]. discriminate H.
Defined.

(** ** The prompt *)

(** C1, as the code has it. In the scenario (one mode ROMANTIC with the
    modifier "make it romantic", which is the default; the message "hi";
    no mode argument) the later version joins the items of the prefix and
    of the suffix with spaces, and returns the prompt of the specification
    when they are the lists ["Rewrite:"] and ["Done."]; the earlier
    version concatenates them as strings, and returns that prompt for the
    strings "Rewrite:" and "Done.". *)
Theorem get_prompt_scenario (w : world) (number : value) (flag : bool)
  (token : value) :
  (forall (description : string) (self : New.WingmanGPT),
      New.init w number flag token (VStr "hi") None
        (romantic (TList [ "Rewrite:" ]) (TList [ "Done." ]) description)
      = Ok self ->
      New.get_prompt self = scenario_prompt)
  /\ (forall (description : option string) (self : Old.WingmanGPT),
         prompts_file w
         = Some (romantic_json (TStr "Rewrite:") (TStr "Done.") description) ->
         Old.init w number flag token (VStr "hi") None = Ok self ->
         Old.get_prompt self = Ok scenario_prompt).
Proof.
  split.
  - intros description self. unfold New.init.
    destruct (New.get_phone_number number); simpl; [ | discriminate ].
    destruct (New.get_token w token); simpl; [ | discriminate ].
    intro H. inversion H; subst. reflexivity.
  - intros description self Hfile. unfold Old.init.
    destruct (Old.get_phone_number number); simpl; [ | discriminate ].
    destruct (Old.get_token w token); simpl; [ | discriminate ].
    unfold Old.get_prompt_data. rewrite Hfile. simpl.
    intro H. inversion H; subst. reflexivity.
Qed.

Lemma get_prompt_scenario_witness :
  let w :=
    sample_world (romantic_json (TStr "Rewrite:") (TStr "Done.") None) "n" in
  New.get_prompt (sample_new true) = scenario_prompt
  /\ Old.get_prompt sample_old = Ok scenario_prompt.
Proof.
  intro w. split.
  - exact (proj1 (get_prompt_scenario w (VStr "1234567890") false
                    (VStr "secret"))
             "Sweet" (sample_new true) eq_refl).
  - exact (proj2 (get_prompt_scenario w (VStr "1234567890") false
                    (VStr "secret"))
             None sample_old eq_refl eq_refl).
Defined.

(** C1, as stated, fails on the later version: with the prefix and the
    suffix given as the strings "Rewrite:" and "Done.", [" ".join] puts a
    space between every two of their characters. *)
Lemma get_prompt_str_prefix_spaced :
  exists self,
    New.init
      (sample_world (romantic_json (TStr "Rewrite:") (TStr "Done.") None) "n")
      (VStr "1234567890") false (VStr "secret") (VStr "hi") None
      (romantic (TStr "Rewrite:") (TStr "Done.") "Sweet")
    = Ok self
    /\ New.get_prompt self
       = "R e w r i t e : Here is the message: " ++ dq ++ "hi" ++ dq
         ++ ". Here is how I want you to modify the message: " ++ dq
         ++ "make it romantic" ++ dq ++ ".D o n e ."
    /\ New.get_prompt self <> scenario_prompt.
Proof.
  eexists. split; [ reflexivity | ]. split; [ reflexivity | ].
  vm_compute. discriminate.
Qed.

(** ** The message *)

Lemma not_nonempty_str (v : value) :
  (forall m, v = VStr m -> m = EmptyString) -> nonempty_str v = None.
Proof.
  intro H. destruct v as [ | s | z | b ]; try reflexivity.
  rewrite (H s eq_refl). reflexivity.
Qed.

(** C8. The message is the value of the flag when that is a non-empty
    string, whatever the file holds; otherwise the content of message.txt
    when the file exists and is not empty; otherwise the resolution
    raises "No message provided or found in message.txt". *)
Theorem get_message_precedence (w : world) (message : value) :
  (forall m,
      message = VStr m -> m <> EmptyString ->
      New.get_message w message = Ok m /\ Old.get_message w message = Ok m)
  /\ (forall content,
         (forall m, message = VStr m -> m = EmptyString) ->
         read_text w "message.txt" = Some content ->
         content <> EmptyString ->
         New.get_message w message = Ok content
         /\ Old.get_message w message = Ok content)
  /\ ((forall m, message = VStr m -> m = EmptyString) ->
      read_text w "message.txt" = None
      \/ read_text w "message.txt" = Some EmptyString ->
      New.get_message w message
      = Raise (Exception "No message provided or found in message.txt")
      /\ Old.get_message w message
         = Raise (Exception "No message provided or found in message.txt")).
Proof.
  split; [ | split ].
  - intros m Hm Hne.
    assert (H : nonempty_str message = Some m)
      by (apply nonempty_str_some; auto).
    unfold New.get_message, Old.get_message. rewrite H. auto.
  - intros content Hflag Hfile Hne.
    apply not_nonempty_str in Hflag. apply is_empty_false in Hne.
    unfold New.get_message, Old.get_message.
    rewrite Hflag, Hfile, Hne. auto.
  - intros Hflag Hfile. apply not_nonempty_str in Hflag.
    unfold New.get_message, Old.get_message. rewrite Hflag.
    destruct Hfile as [ -> | -> ]; auto.
Qed.

Lemma get_message_precedence_witness :
  let w :=
    {| prompts_file := None;
       read_text := fun path =>
                      if path =? "message.txt" then Some "from the file"
                      else None;
       chatbot_ask := fun _ _ => inr [];
       stdin := None;
       subprocess_run := fun _ _ => None |} in
  New.get_message w (VStr "from the flag") = Ok "from the flag"
  /\ New.get_message w VNone = Ok "from the file"
  /\ New.get_message
       (sample_world (romantic_json (TStr "a") (TStr "b") None) "n")
       (VStr EmptyString)
     = Raise (Exception "No message provided or found in message.txt").
Proof.
  intro w. split; [ | split ].
  - apply (proj1 (get_message_precedence w (VStr "from the flag"))
             "from the flag" eq_refl).
    discriminate.
  - apply (proj1 (proj2 (get_message_precedence w VNone)) "from the file").
    + intros m H. discriminate H.
    + reflexivity.
    + discriminate.
  - apply (proj2 (proj2 (get_message_precedence
                           (sample_world
                              (romantic_json (TStr "a") (TStr "b") None) "n")
                           (VStr EmptyString)))).
    + intros m H. now inversion H.
    + left. reflexivity.
Defined.

(** ** Showing the modes *)

Lemma prints_not_run {A} (f : A -> string) (l : list A) :
  existsb is_run (map (fun x => Print (f x)) l) = false.
Proof. induction l as [ | x l IH ]; simpl; auto. Qed.

Lemma prints_not_ask {A} (f : A -> string) (l : list A) :
  existsb is_ask (map (fun x => Print (f x)) l) = false.
Proof. induction l as [ | x l IH ]; simpl; auto. Qed.

Lemma show_modes_loop (modes : list New.ResponseMode) (t : list event) :
  fold_left
    (fun out mode =>
       out ;;> print (tab ++ New.NAME mode ++ ": " ++ New.DESCRIPTION mode))
    modes (t, Ok tt)
  = ((t ++ map (fun mode =>
                  Print (tab ++ New.NAME mode ++ ": " ++ New.DESCRIPTION mode))
             modes)%list,
     Ok tt).
Proof.
  revert t. induction modes as [ | mode modes IH ]; intro t.
  - simpl. now rewrite app_nil_r.
  - cbn [fold_left map]. unfold seq at 2, print. rewrite IH.
    now rewrite <- app_assoc.
Qed.

Lemma show_modes_prints (pd : New.PromptData) :
  New.show_modes pd
  = (Print "AVAILABLE MODES:"
       :: map (fun mode =>
                 Print (tab ++ New.NAME mode ++ ": " ++ New.DESCRIPTION mode))
            (New.MODES pd),
     Ok tt).
Proof. unfold New.show_modes, print. now rewrite show_modes_loop. Qed.

(** C6. With --show-modes, whatever the number, the message, the token,
    the mode and --noconfirm are (absent or present), the program neither
    asks the chat service nor hands a command to the shell, and returns;
    when the configuration loads, what it prints is the heading and then,
    for each configured mode in order, its name and its description. *)
Theorem show_modes_only_lists (w : world) (number : value)
  (noconfirm : bool) (token message : value) (mode : option string) :
  let out := New.main w number noconfirm token message mode true in
  dispatched (trace out) = false
  /\ existsb is_ask (trace out) = false
  /\ snd out = Ok tt
  /\ (forall pd,
         New.get_prompt_data w = Ok pd ->
         trace out
         = Print "AVAILABLE MODES:"
             :: map (fun m =>
                       Print (tab ++ New.NAME m ++ ": " ++ New.DESCRIPTION m))
                  (New.MODES pd)).
Proof.
  unfold New.main, dispatched, trace.
  destruct (New.get_prompt_data w) as [ pd | e ].
  - rewrite show_modes_prints. cbn [fst snd existsb is_run is_ask orb].
    rewrite prints_not_run, prints_not_ask.
    repeat split. intros pd' H. now inversion H.
  - repeat split. intros pd' H. discriminate H.
Qed.

Lemma show_modes_only_lists_witness :
  trace (New.main
           (sample_world
              (romantic_json (TList [ "Rewrite:" ]) (TList [ "Done." ])
                 (Some "Sweet")) "y")
           VNone false VNone VNone None true)
  = [ Print "AVAILABLE MODES:"; Print (tab ++ "ROMANTIC: Sweet") ].
Proof.
  exact (proj2 (proj2 (proj2
           (show_modes_only_lists
              (sample_world
                 (romantic_json (TList [ "Rewrite:" ]) (TList [ "Done." ])
                    (Some "Sweet")) "y")
              VNone false VNone VNone None)))
           (romantic (TList [ "Rewrite:" ]) (TList [ "Done." ]) "Sweet")
           eq_refl).
Defined.

(** ** The confirmation *)

Lemma lower_char_y (c : ascii) :
  lower_char c = "y"%char -> c = "y"%char \/ c = "Y"%char.
Proof.
  destruct c as [ [] [] [] [] [] [] [] [] ]; vm_compute; intro H;
    try discriminate H; auto.
Qed.

Lemma lower_y (s : string) : lower s = "y" -> s = "y" \/ s = "Y".
Proof.
  destruct s as [ | c [ | d r ] ]; simpl; try discriminate.
  intro H. inversion H as [Hc].
  destruct (lower_char_y c Hc) as [ -> | -> ]; auto.
Qed.

Lemma declined (answer : string) :
  answer <> "y" -> answer <> "Y" -> negb (lower answer =? "y") = true.
Proof.
  intros Hy HY. apply negb_true_iff, String.eqb_neq.
  intro H. destruct (lower_y answer H); contradiction.
Qed.

Lemma new_get_response_quiet (w : world) (self : New.WingmanGPT)
  (t : list event) (r : result string) :
  New.get_response w self = (t, r) -> dispatched t = false.
Proof.
  unfold New.get_response, ask, seq, ret.
  destruct (chatbot_ask w _ _); intro H; inversion H; reflexivity.
Qed.

Lemma old_get_response_quiet (w : world) (self : Old.WingmanGPT)
  (t : list event) (r : result string) :
  Old.get_response w self = (t, r) -> dispatched t = false.
Proof.
  unfold Old.get_response, ask, seq, ret, lift.
  destruct (Old.get_prompt self).
  - destruct (chatbot_ask w _ _); intro H; inversion H; reflexivity.
  - intro H; inversion H; reflexivity.
Qed.

Lemma dispatched_app (t u : list event) :
  dispatched (t ++ u) = dispatched t || dispatched u.
Proof. apply existsb_app. Qed.

(** C7. When the confirmation is asked and the operator answers anything
    but "y" or "Y", the controller of either version, after the
    completion, prints the message, reads the answer, prints "Message not
    sent." and returns: no command is handed to the shell. *)
Theorem declined_confirmation_sends_nothing (w : world) (answer : string) :
  stdin w = Some answer -> answer <> "y" -> answer <> "Y" ->
  (forall (self : New.WingmanGPT) (t : list event) (response : string),
      New.wants_to_confirm self = true ->
      New.get_response w self = (t, Ok response) ->
      New.execute w self
      = ((t ++ [ Print ("********" ++ nl ++ "Message: " ++ response ++ nl
                        ++ "********");
                 Input "Send message? (y/n): ";
                 Print "Message not sent." ])%list,
         Ok tt)
      /\ dispatched (trace (New.execute w self)) = false)
  /\ (forall (self : Old.WingmanGPT) (t : list event) (response : string),
         Old.wants_to_confirm self = true ->
         Old.get_response w self = (t, Ok response) ->
         Old.execute w self
         = ((t ++ [ Print ("********" ++ nl ++ "Message: " ++ response ++ nl
                           ++ "********");
                    Input "Send message? (y/n): ";
                    Print "Message not sent." ])%list,
            Ok tt)
         /\ dispatched (trace (Old.execute w self)) = false).
Proof.
  intros Hin Hy HY. pose proof (declined answer Hy HY) as Hno.
  split; intros self t response Hwants Hget.
  - assert (Hex : New.execute w self
                  = ((t ++ [ Print ("********" ++ nl ++ "Message: "
                                    ++ response ++ nl ++ "********");
                             Input "Send message? (y/n): ";
                             Print "Message not sent." ])%list,
                     Ok tt)).
    { unfold New.execute, New.confirmation, input.
      rewrite Hget, Hwants, Hin. unfold seq, catch, ret, print.
      rewrite Hno. cbn. now rewrite app_nil_r. }
    split; [ exact Hex | ].
    rewrite Hex. unfold trace. cbn [fst]. rewrite dispatched_app.
    rewrite (new_get_response_quiet w self t _ Hget). reflexivity.
  - assert (Hex : Old.execute w self
                  = ((t ++ [ Print ("********" ++ nl ++ "Message: "
                                    ++ response ++ nl ++ "********");
                             Input "Send message? (y/n): ";
                             Print "Message not sent." ])%list,
                     Ok tt)).
    { unfold Old.execute, Old.confirmation, input.
      rewrite Hget, Hwants, Hin. unfold seq, catch, ret, print.
      rewrite Hno. cbn. now rewrite app_nil_r. }
    split; [ exact Hex | ].
    rewrite Hex. unfold trace. cbn [fst]. rewrite dispatched_app.
    rewrite (old_get_response_quiet w self t _ Hget). reflexivity.
Qed.

Lemma declined_confirmation_sends_nothing_witness :
  let w :=
    sample_world (romantic_json (TStr "Rewrite:") (TStr "Done.") None) "no" in
  New.execute w (sample_new true)
  = ([ Ask "secret" scenario_prompt;
       Print ("********" ++ nl ++ "Message: hello there" ++ nl ++ "********");
       Input "Send message? (y/n): ";
       Print "Message not sent." ],
     Ok tt)
  /\ dispatched (trace (New.execute w (sample_new true))) = false.
Proof.
  intro w.
  assert (Hy : "no" <> "y") by discriminate.
  assert (HY : "no" <> "Y") by discriminate.
  exact (proj1 (declined_confirmation_sends_nothing w "no" eq_refl Hy HY)
           (sample_new true) [ Ask "secret" scenario_prompt ] "hello there"
           eq_refl eq_refl).
Defined.

(** The answers "y" and "Y" do send the message. *)
Example confirmed_answer_sends :
  dispatched
    (trace (New.execute
              (sample_world
                 (romantic_json (TStr "Rewrite:") (TStr "Done.") None) "Y")
              (sample_new true)))
  = true
  /\ dispatched (trace (New.execute one_word_world (sample_new true))) = true.
Proof. split; reflexivity. Qed.

(** ** The token *)

(** X1. The token is the value of the flag when that is a non-empty
    string, whatever the file holds; otherwise the content of the file
    [token] when it exists and is not empty; otherwise the resolution
    raises "No token provided or found in token file". *)
Theorem get_token_precedence (w : world) (token : value) :
  (forall t,
      token = VStr t -> t <> EmptyString ->
      New.get_token w token = Ok t /\ Old.get_token w token = Ok t)
  /\ (forall content,
         (forall t, token = VStr t -> t = EmptyString) ->
         read_text w "token" = Some content ->
         content <> EmptyString ->
         New.get_token w token = Ok content
         /\ Old.get_token w token = Ok content)
  /\ ((forall t, token = VStr t -> t = EmptyString) ->
      read_text w "token" = None \/ read_text w "token" = Some EmptyString ->
      New.get_token w token
      = Raise (Exception "No token provided or found in token file")
      /\ Old.get_token w token
         = Raise (Exception "No token provided or found in token file")).
Proof.
  split; [ | split ].
  - intros t Ht Hne.
    assert (H : nonempty_str token = Some t)
      by (apply nonempty_str_some; auto).
    unfold New.get_token, Old.get_token. rewrite H. auto.
  - intros content Hflag Hfile Hne.
    apply not_nonempty_str in Hflag. apply is_empty_false in Hne.
    unfold New.get_token, Old.get_token.
    rewrite Hflag, Hfile, Hne. auto.
  - intros Hflag Hfile. apply not_nonempty_str in Hflag.
    unfold New.get_token, Old.get_token. rewrite Hflag.
    destruct Hfile as [ -> | -> ]; auto.
Qed.

Lemma get_token_precedence_witness :
  New.get_token (token_file_world "from the file") (VStr "from the flag")
  = Ok "from the flag"
  /\ New.get_token (token_file_world "from the file") VNone
     = Ok "from the file"
  /\ New.get_token (token_file_world EmptyString) (VInt 7)
     = Raise (Exception "No token provided or found in token file").
Proof.
  split; [ | split ].
  - apply (proj1 (get_token_precedence (token_file_world "from the file")
                    (VStr "from the flag"))
             "from the flag" eq_refl).
    discriminate.
  - apply (proj1 (proj2 (get_token_precedence
                           (token_file_world "from the file") VNone))
             "from the file").
    + intros t H. discriminate H.
    + reflexivity.
    + discriminate.
  - apply (proj2 (proj2 (get_token_precedence
                           (token_file_world EmptyString) (VInt 7)))).
    + intros t H. discriminate H.
    + right. reflexivity.
Defined.

Lemma replace_removes (old : ascii) (s : string) :
  contains old (replace old EmptyString s) = false.
Proof.
  induction s as [ | c s IH ]; simpl.
  - reflexivity.
  - destruct (c =? old)%char eqn:E; simpl.
    + exact IH.
    + now rewrite E.
Qed.

Lemma replace_absent (old : ascii) (new s : string) :
  contains old s = false -> replace old new s = s.
Proof.
  induction s as [ | c s IH ]; simpl.
  - reflexivity.
  - destruct (c =? old)%char; simpl; [ discriminate | ].
    intro H. now rewrite IH.
Qed.

(** X2. Whatever the stored token is, the access token that the adapter
    of either version hands to the chat service holds no newline, the
    request is the only event of the adapter, and a token without newline
    is handed over as it is. *)
Theorem get_response_token_without_newline (w : world) :
  (forall (self : New.WingmanGPT) (t : list event) (r : result string),
      New.get_response w self = (t, r) ->
      exists access_token,
        t = [ Ask access_token (New.get_prompt self) ]
        /\ contains "010" access_token = false
        /\ (contains "010" (New.token self) = false ->
            access_token = New.token self))
  /\ (forall (self : Old.WingmanGPT) (PROMPT : string) (t : list event)
        (r : result string),
         Old.get_prompt self = Ok PROMPT ->
         Old.get_response w self = (t, r) ->
         exists access_token,
           t = [ Ask access_token PROMPT ]
           /\ contains "010" access_token = false
           /\ (contains "010" (Old.token self) = false ->
               access_token = Old.token self)).
Proof.
  split.
  - intros self t r. unfold New.get_response, ask, seq, ret.
    intro H. exists (replace "010" EmptyString (New.token self)).
    split; [ | split ].
    + destruct (chatbot_ask w _ _); now inversion H.
    + apply replace_removes.
    + apply replace_absent.
  - intros self PROMPT t r HP.
    unfold Old.get_response, ask, seq, ret, lift. rewrite HP.
    intro H. exists (replace "010" EmptyString (Old.token self)).
    split; [ | split ].
    + destruct (chatbot_ask w _ _); now inversion H.
    + apply replace_removes.
    + apply replace_absent.
Qed.

Lemma get_response_token_without_newline_witness :
  exists access_token,
    [ Ask "secret" scenario_prompt ]
    = [ Ask access_token (New.get_prompt (sample_new true)) ]
    /\ contains "010" access_token = false
    /\ (contains "010" "secret" = false -> access_token = "secret").
Proof.
  exact (proj1 (get_response_token_without_newline one_word_world)
           (sample_new true) [ Ask "secret" scenario_prompt ] (Ok "hello")
           eq_refl).
Defined.

(** ** The body of the message, continued *)

(** X3. A completion that holds a character the shell could interpret
    (a space, say) and no apostrophe is handed over as it is, between
    double quotes, by both versions; a double quote inside it is not
    escaped. *)
Theorem prepared_response_verbatim (response : string) :
  find_unsafe response = true ->
  contains "'" response = false ->
  New.prepared_response response = dq ++ response ++ dq
  /\ Old.prepared_response response = dq ++ response ++ dq.
Proof.
  intros Hu Hq.
  destruct (prepared_response_quoted response (or_intror Hu)) as [HN HO].
  rewrite HN, HO. unfold escaped. rewrite (replace_absent _ _ _ Hq). auto.
Qed.

Lemma prepared_response_verbatim_witness :
  New.prepared_response ("say " ++ dq ++ "hi" ++ dq)
  = dq ++ ("say " ++ dq ++ "hi" ++ dq) ++ dq
  /\ Old.prepared_response ("say " ++ dq ++ "hi" ++ dq)
     = dq ++ ("say " ++ dq ++ "hi" ++ dq) ++ dq.
Proof.
  apply (prepared_response_verbatim ("say " ++ dq ++ "hi" ++ dq));
    reflexivity.
Defined.

Lemma append_associative (s t u : string) : s ++ t ++ u = (s ++ t) ++ u.
Proof. induction s as [ | c s IH ]; simpl; congruence. Qed.

Lemma replace_append (old : ascii) (new s t : string) :
  replace old new (s ++ t) = replace old new s ++ replace old new t.
Proof.
  induction s as [ | c s IH ]; simpl.
  - reflexivity.
  - rewrite IH. destruct (c =? old)%char; simpl; [ | reflexivity ].
    apply append_associative.
Qed.

(** X4. Every apostrophe of a completion reaches the body as the five
    characters apostrophe, double quote, apostrophe, double quote,
    apostrophe, the text around it unchanged. *)
Theorem prepared_response_apostrophe (before after : string) :
  contains "'" before = false -> contains "'" after = false ->
  New.prepared_response (before ++ "'" ++ after)
  = dq ++ before ++ "'" ++ dq ++ "'" ++ dq ++ "'" ++ after ++ dq.
Proof.
  intros Hb Ha. change ("'" ++ after) with (String "'" after).
  assert (Hu : find_unsafe (before ++ String "'" after) = true).
  { clear. induction before as [ | c s IH ].
    - reflexivity.
    - change (negb (safe_char c) || find_unsafe (s ++ String "'" after)
              = true).
      rewrite IH. apply orb_true_r. }
  rewrite (proj1 (prepared_response_quoted _ (or_intror Hu))).
  unfold escaped. rewrite replace_append, (replace_absent _ _ _ Hb).
  simpl replace. rewrite (replace_absent _ _ _ Ha).
  rewrite <- append_associative. reflexivity.
Qed.

Lemma prepared_response_apostrophe_witness :
  New.prepared_response "it's me"
  = dq ++ "it'" ++ dq ++ "'" ++ dq ++ "'s me" ++ dq.
Proof.
  exact (prepared_response_apostrophe "it" "s me" eq_refl eq_refl).
Defined.

(** ** The resolution of the mode, continued *)

Lemma dict_in_get (d : dict) (k v : string) :
  dict_get d k = Some v -> dict_in k d = true.
Proof. unfold dict_in. now intros ->. Qed.

(** X5. A mode name that is given and configured resolves to the prompt
    modification of the mode of that name, the last one should several
    modes carry it, in both versions; the default plays no part. *)
Theorem known_mode_resolves (mode_str : string) :
  mode_str <> EmptyString ->
  (forall pd : New.PromptData,
      In mode_str (map New.NAME (New.MODES pd)) ->
      exists before m after,
        New.MODES pd = (before ++ m :: after)%list
        /\ New.NAME m = mode_str
        /\ ~ In mode_str (map New.NAME after)
        /\ New.get_mode_modification pd (Some mode_str)
           = Ok (New.PROMPT_MODIFICATION m))
  /\ (forall pd : Old.PromptData,
         In mode_str (map Old.NAME (Old.MODES pd)) ->
         exists before m after,
           Old.MODES pd = (before ++ m :: after)%list
           /\ Old.NAME m = mode_str
           /\ ~ In mode_str (map Old.NAME after)
           /\ Old.get_mode_modification pd (Some mode_str)
              = Ok (Old.PROMPT_MODIFICATION m)).
Proof.
  intro Hne. apply is_empty_false in Hne. split; intros pd Hin.
  - destruct (last_occurrence _ New.NAME _ _ Hin)
      as (before & m & after & Hmodes & Hname & Hafter).
    exists before, m, after. repeat split; try assumption.
    assert (Hget : dict_get (New.available_modes pd) mode_str
                   = Some (New.PROMPT_MODIFICATION m)).
    { unfold New.available_modes, comprehension.
      rewrite Hmodes, <- Hname. apply fill_get_last. now rewrite Hname. }
    unfold New.get_mode_modification, dict_item.
    now rewrite Hne, (dict_in_get _ _ _ Hget), Hget.
  - destruct (last_occurrence _ Old.NAME _ _ Hin)
      as (before & m & after & Hmodes & Hname & Hafter).
    exists before, m, after. repeat split; try assumption.
    assert (Hget : dict_get (Old.available_modes pd) mode_str
                   = Some (Old.PROMPT_MODIFICATION m)).
    { unfold Old.available_modes, comprehension.
      rewrite Hmodes, <- Hname. apply fill_get_last. now rewrite Hname. }
    unfold Old.get_mode_modification, dict_item.
    now rewrite Hne, (dict_in_get _ _ _ Hget), Hget.
Qed.

Lemma known_mode_resolves_witness :
  exists before m after,
    New.MODES (romantic (TList [ "Rewrite:" ]) (TList [ "Done." ]) "Sweet")
    = (before ++ m :: after)%list
    /\ New.NAME m = "ROMANTIC"
    /\ ~ In "ROMANTIC" (map New.NAME after)
    /\ New.get_mode_modification
         (romantic (TList [ "Rewrite:" ]) (TList [ "Done." ]) "Sweet")
         (Some "ROMANTIC")
       = Ok (New.PROMPT_MODIFICATION m).
Proof.
  assert (Hne : "ROMANTIC" <> EmptyString) by discriminate.
  apply (proj1 (known_mode_resolves "ROMANTIC" Hne)
           (romantic (TList [ "Rewrite:" ]) (TList [ "Done." ]) "Sweet")).
  simpl. left. reflexivity.
Defined.

(** X6. When the mode argument is absent or empty and the default names
    no configured mode, the resolution raises the KeyError of the default
    name, in both versions. *)
Theorem omitted_mode_without_default (mode : option string) :
  omitted mode = true ->
  (forall pd : New.PromptData,
      ~ In (New.DEFAULT_MODE pd) (map New.NAME (New.MODES pd)) ->
      New.get_mode_modification pd mode
      = Raise (KeyError (New.DEFAULT_MODE pd)))
  /\ (forall pd : Old.PromptData,
         ~ In (Old.DEFAULT_MODE pd) (map Old.NAME (Old.MODES pd)) ->
         Old.get_mode_modification pd mode
         = Raise (KeyError (Old.DEFAULT_MODE pd))).
Proof.
  intro Hmode. split; intros pd Hnot.
  - rewrite (new_default_item pd mode Hmode).
    unfold dict_item, New.available_modes, comprehension.
    now rewrite fill_get_old by exact Hnot.
  - rewrite (old_default_item pd mode Hmode).
    unfold dict_item, Old.available_modes, comprehension.
    now rewrite fill_get_old by exact Hnot.
Qed.

Lemma omitted_mode_without_default_witness :
  New.get_mode_modification
    {| New.PREFIX := TList [];
       New.SUFFIX := TList [];
       New.MODES := [];
       New.DEFAULT_MODE := "ROMANTIC" |}
    (Some EmptyString)
  = Raise (KeyError "ROMANTIC").
Proof.
  apply (proj1 (omitted_mode_without_default (Some EmptyString) eq_refl)
           {| New.PREFIX := TList [];
              New.SUFFIX := TList [];
              New.MODES := [];
              New.DEFAULT_MODE := "ROMANTIC" |}).
  simpl. tauto.
Defined.

Lemma fill_map {A B} (f : A -> B) (key val : B -> string) (l : list A)
  (d : dict) :
  fill key val d (map f l)
  = fill (fun x => key (f x)) (fun x => val (f x)) d l.
Proof.
  revert d. induction l as [ | x l IH ]; intro d.
  - reflexivity.
  - change (map f (x :: l)) with (f x :: map f l).
    rewrite !fill_cons. apply IH.
Qed.

Lemma forget_available_modes (pd : New.PromptData) :
  Old.available_modes (forget pd) = New.available_modes pd.
Proof.
  unfold Old.available_modes, New.available_modes, comprehension, forget.
  simpl. rewrite fill_map. reflexivity.
Qed.

(** X7. On the same template the two versions build the same dictionary
    of modes and resolve every mode argument to the same prompt
    modification; they raise together, a KeyError being the same in
    both. *)
Theorem get_mode_modification_versions_agree (pd : New.PromptData)
  (mode : option string) :
  Old.available_modes (forget pd) = New.available_modes pd
  /\ (forall v,
         New.get_mode_modification pd mode = Ok v
         <-> Old.get_mode_modification (forget pd) mode = Ok v)
  /\ (forall k,
         New.get_mode_modification pd mode = Raise (KeyError k)
         <-> Old.get_mode_modification (forget pd) mode
             = Raise (KeyError k)).
Proof.
  split; [ apply forget_available_modes | ].
  unfold New.get_mode_modification, Old.get_mode_modification.
  rewrite forget_available_modes.
  change (Old.DEFAULT_MODE (forget pd)) with (New.DEFAULT_MODE pd).
  destruct mode as [ s | ]; [ | split; intro; tauto ].
  destruct (is_empty s); [ split; intro; tauto | ].
  destruct (dict_in s (New.available_modes pd)); simpl.
  - split; intro; tauto.
  - split; intro; split; discriminate.
Qed.

(** ** Loading the template *)

Lemma new_load_modes_dump (modes : list New.ResponseMode) :
  New.load_modes (map mode_to_json modes) = Ok modes.
Proof.
  induction modes as [ | [name description modifier] modes IH ].
  - reflexivity.
  - simpl. simpl in IH. now rewrite IH.
Qed.

Lemma new_load_modes_inv (entries : list mode_json)
  (modes : list New.ResponseMode) :
  New.load_modes entries = Ok modes -> entries = map mode_to_json modes.
Proof.
  revert modes.
  induction entries as [ | [name description modifier] entries IH ];
    intros modes; simpl.
  - intro H. now inversion H.
  - destruct name, description, modifier; simpl; try discriminate.
    destruct (New.load_modes entries) as [ rest | ]; simpl;
      [ | discriminate ].
    intro H. inversion H; subst. simpl. now rewrite (IH rest eq_refl).
Qed.

Lemma new_loaded_file (w : world) (pd : New.PromptData) :
  New.get_prompt_data w = Ok pd -> prompts_file w = Some (dump pd).
Proof.
  unfold New.get_prompt_data.
  destruct (prompts_file w) as [ [prefix suffix modes default] | ];
    [ | discriminate ].
  simpl. destruct modes as [ entries | ]; simpl; [ | discriminate ].
  destruct (New.load_modes entries) as [ loaded | ] eqn:Hload; simpl;
    [ | discriminate ].
  destruct prefix, suffix, default; simpl; try discriminate.
  intro H. inversion H; subst. unfold dump. simpl.
  now rewrite (new_load_modes_inv _ _ Hload).
Qed.

(** X8. The later version loads a template exactly from the files that
    hold it in full: loading gives [pd] if and only if prompts.json exists
    and holds the prefix, the suffix, the default mode and, in order, the
    name, description and modifier of every mode of [pd], and nothing is
    lost or reordered on the way. *)
Theorem get_prompt_data_loads_dump (w : world) (pd : New.PromptData) :
  New.get_prompt_data w = Ok pd <-> prompts_file w = Some (dump pd).
Proof.
  split.
  - apply new_loaded_file.
  - unfold New.get_prompt_data. intros ->. unfold dump. simpl.
    rewrite new_load_modes_dump. destruct pd. reflexivity.
Qed.




Lemma old_load_modes_dump (modes : list New.ResponseMode) :
  Old.load_modes (map mode_to_json modes) = Ok (map forget_mode modes).
Proof.
  induction modes as [ | [name description modifier] modes IH ].
  - reflexivity.
  - simpl. simpl in IH. now rewrite IH.
Qed.

(** X10. Every file that the later version loads, the earlier version
    loads too, to the same prefix, suffix and modes (name and modifier,
    in order); it ignores the descriptions and the default mode of the
    file and takes ROMANTIC as the default. *)
Theorem get_prompt_data_earlier_loads (w : world) (pd : New.PromptData) :
  New.get_prompt_data w = Ok pd ->
  Old.get_prompt_data w
  = Ok {| Old.PREFIX := New.PREFIX pd;
          Old.SUFFIX := New.SUFFIX pd;
          Old.MODES := map forget_mode (New.MODES pd);
          Old.DEFAULT_MODE := "ROMANTIC" |}.
Proof.
  intro H. apply new_loaded_file in H.
  unfold Old.get_prompt_data. rewrite H. unfold dump. simpl.
  now rewrite old_load_modes_dump.
Qed.

Lemma get_prompt_data_earlier_loads_witness :
  Old.get_prompt_data one_word_world
  = Ok {| Old.PREFIX := TList [ "Rewrite:" ];
          Old.SUFFIX := TList [ "Done." ];
          Old.MODES := [ {| Old.NAME := "ROMANTIC";
                            Old.PROMPT_MODIFICATION := "make it romantic" |} ];
          Old.DEFAULT_MODE := "ROMANTIC" |}.
Proof.
  exact (get_prompt_data_earlier_loads one_word_world
           (romantic (TList [ "Rewrite:" ]) (TList [ "Done." ]) "Sweet")
           eq_refl).
Defined.

(** ** The object and the run *)

Lemma fill_get_inv {A} (key val : A -> string) (l : list A) (d : dict)
  (k v : string) :
  dict_get (fill key val d l) k = Some v ->
  (exists x, In x l /\ key x = k /\ val x = v) \/ dict_get d k = Some v.
Proof.
  revert d. induction l as [ | x l IH ]; intros d H.
  - now right.
  - rewrite fill_cons in H. destruct (IH _ H) as [ (y & Hy & Hk) | Hd ].
    + left. exists y. simpl. auto.
    + rewrite dict_get_set in Hd.
      destruct (key x =? k) eqn:E.
      * apply String.eqb_eq in E. inversion Hd; subst.
        left. exists x. simpl. auto.
      * now right.
Qed.

Lemma dict_item_comprehension {A} (key val : A -> string) (l : list A)
  (k v : string) :
  dict_item (comprehension key val l) k = Ok v ->
  exists x, In x l /\ key x = k /\ val x = v.
Proof.
  unfold dict_item, comprehension.
  destruct (dict_get (fill key val [] l) k) as [ u | ] eqn:H;
    [ | discriminate ].
  intro Hv. inversion Hv; subst.
  destruct (fill_get_inv _ _ _ _ _ _ H) as [ Hx | Hd ];
    [ exact Hx | discriminate Hd ].
Qed.

Lemma new_get_mode_modification_ok (pd : New.PromptData)
  (mode : option string) (v : string) :
  New.get_mode_modification pd mode = Ok v ->
  exists m, In m (New.MODES pd) /\ New.PROMPT_MODIFICATION m = v.
Proof.
  unfold New.get_mode_modification, New.available_modes. intro H.
  assert (Hitem : exists k,
             dict_item (comprehension New.NAME New.PROMPT_MODIFICATION
                          (New.MODES pd)) k = Ok v).
  { destruct mode as [ s | ]; [ | eauto ].
    destruct (is_empty s); [ eauto | ].
    destruct (negb _); [ discriminate | eauto ]. }
  destruct Hitem as [k Hk].
  destruct (dict_item_comprehension _ _ _ _ _ Hk) as (m & Hin & _ & Hv).
  eauto.
Qed.

Lemma new_get_token_nonempty (w : world) (token : value) (t : string) :
  New.get_token w token = Ok t -> t <> EmptyString.
Proof.
  unfold New.get_token.
  destruct (nonempty_str token) as [ s | ] eqn:H.
  - intro E. inversion E; subst. now apply nonempty_str_some in H.
  - destruct (read_text w "token") as [ tok | ]; [ | discriminate ].
    destruct (is_empty tok) eqn:He; simpl; [ discriminate | ].
    intro E. inversion E; subst. now apply is_empty_false.
Qed.

Lemma new_get_message_nonempty (w : world) (message : value) (m : string) :
  New.get_message w message = Ok m -> m <> EmptyString.
Proof.
  unfold New.get_message.
  destruct (nonempty_str message) as [ s | ] eqn:H.
  - intro E. inversion E; subst. now apply nonempty_str_some in H.
  - destruct (read_text w "message.txt") as [ msg | ]; [ | discriminate ].
    destruct (is_empty msg) eqn:He; simpl; [ discriminate | ].
    intro E. inversion E; subst. now apply is_empty_false.
Qed.

Lemma phone_spec_ok (number : value) (s : string) :
  phone_spec isdigit_char number = Ok s ->
  number = VStr s /\ ten_digits isdigit_char s = true.
Proof.
  destruct number as [ | t | z | b ]; simpl; try discriminate.
  destruct (ten_digits isdigit_char t) eqn:H; [ | discriminate ].
  intro E. inversion E; subst. auto.
Qed.

(** X11. Every object that [__init__] of the later version builds is a
    well-formed request: its phone number is the given string, of ten
    digits; its token and its message are not empty; it asks for a
    confirmation unless --noconfirm was given; it carries the template it
    was given; and its prompt modification is that of one of the
    configured modes. *)
Theorem init_establishes_request (w : world) (number : value)
  (noconfirm : bool) (token message : value) (mode : option string)
  (pd : New.PromptData) (self : New.WingmanGPT) :
  New.init w number noconfirm token message mode pd = Ok self ->
  number = VStr (New.phone_number self)
  /\ ten_digits isdigit_char (New.phone_number self) = true
  /\ New.token self <> EmptyString
  /\ New.message self <> EmptyString
  /\ New.wants_to_confirm self = negb noconfirm
  /\ New.prompt_data self = pd
  /\ exists m,
      In m (New.MODES pd)
      /\ New.PROMPT_MODIFICATION m = New.mode_modification self.
Proof.
  unfold New.init. rewrite new_get_phone_number_spec.
  destruct (phone_spec isdigit_char number) as [ p | ] eqn:Hp; simpl;
    [ | discriminate ].
  destruct (New.get_token w token) as [ t | ] eqn:Ht; simpl;
    [ | discriminate ].
  destruct (New.get_message w message) as [ m | ] eqn:Hm; simpl;
    [ | discriminate ].
  destruct (New.get_mode_modification pd mode) as [ v | ] eqn:Hv; simpl;
    [ | discriminate ].
  intro H. inversion H; subst. simpl.
  destruct (phone_spec_ok _ _ Hp) as [Hn Hd].
  repeat split; try assumption.
  - exact (new_get_token_nonempty _ _ _ Ht).
  - exact (new_get_message_nonempty _ _ _ Hm).
  - exact (new_get_mode_modification_ok _ _ _ Hv).
Qed.

Lemma init_establishes_request_witness :
  VStr "1234567890" = VStr (New.phone_number (sample_new true))
  /\ ten_digits isdigit_char (New.phone_number (sample_new true)) = true
  /\ New.token (sample_new true) <> EmptyString
  /\ New.message (sample_new true) <> EmptyString
  /\ New.wants_to_confirm (sample_new true) = negb false
  /\ New.prompt_data (sample_new true)
     = romantic (TList [ "Rewrite:" ]) (TList [ "Done." ]) "Sweet"
  /\ exists m,
      In m (New.MODES
              (romantic (TList [ "Rewrite:" ]) (TList [ "Done." ]) "Sweet"))
      /\ New.PROMPT_MODIFICATION m = New.mode_modification (sample_new true).
Proof.
  exact (init_establishes_request one_word_world (VStr "1234567890") false
           (VStr "secret") (VStr "hi") None
           (romantic (TList [ "Rewrite:" ]) (TList [ "Done." ]) "Sweet")
           (sample_new true) eq_refl).
Defined.

(** Every way through [execute], one after the other. *)
Ltac walk :=
  repeat (match goal with
          | |- context [ match ?x with _ => _ end ] =>
              lazymatch x with
              | context [ match _ with _ => _ end ] => fail
              | _ => destruct x eqn:?
              end
          end; cbn).

Lemma new_execute_returns (w : world) (self : New.WingmanGPT) :
  snd (New.execute w self) = Ok tt.
Proof.
  unfold New.execute, New.get_response, New.confirmation, New.send_message,
    ask, input, run, seq, catch, ret, print, throw.
  walk; reflexivity.
Qed.

Lemma old_execute_returns (w : world) (self : Old.WingmanGPT) :
  snd (Old.execute w self) = Ok tt.
Proof.
  unfold Old.execute, Old.get_response, Old.confirmation, Old.send_message,
    ask, input, run, seq, catch, ret, print, throw, lift.
  walk; reflexivity.
Qed.

Lemma new_main_after_init (w : world) (number : value) (noconfirm : bool)
  (token message : value) (mode : option string) (pd : New.PromptData)
  (self : New.WingmanGPT) :
  New.get_prompt_data w = Ok pd ->
  New.init w number noconfirm token message mode pd = Ok self ->
  New.main w number noconfirm token message mode false = New.execute w self.
Proof.
  intros Hpd Hinit. unfold New.main. rewrite Hpd.
  destruct number as [ | s | z | b ]; try discriminate Hinit.
  rewrite Hinit. unfold lift, seq, catch.
  pose proof (new_execute_returns w self) as Hret.
  destruct (New.execute w self) as [t r]. simpl in Hret. subst r.
  reflexivity.
Qed.

Lemma new_main_init_fails (w : world) (number : value) (noconfirm : bool)
  (token message : value) (mode : option string) (pd : New.PromptData)
  (e : exn) :
  New.get_prompt_data w = Ok pd -> number <> VNone ->
  New.init w number noconfirm token message mode pd = Raise e ->
  New.main w number noconfirm token message mode false
  = ([ Print ("Error occurred: " ++ str_exn e) ], Ok tt).
Proof.
  intros Hpd Hnum Hinit. unfold New.main. rewrite Hpd.
  destruct number as [ | s | z | b ]; try (now elim Hnum);
    rewrite Hinit; reflexivity.
Qed.

(** X12. Once the template is loaded and an object is built, the run of
    the later version is the run of [execute] on that object: the handler
    of [main] adds nothing, since [execute] lets no exception out. *)
Theorem main_runs_execute (w : world) (number : value) (noconfirm : bool)
  (token message : value) (mode : option string) (pd : New.PromptData)
  (self : New.WingmanGPT) :
  New.get_prompt_data w = Ok pd ->
  New.init w number noconfirm token message mode pd = Ok self ->
  New.main w number noconfirm token message mode false = New.execute w self.
Proof. apply new_main_after_init. Qed.

Lemma main_runs_execute_witness :
  New.main one_word_world (VStr "1234567890") false (VStr "secret")
    (VStr "hi") None false
  = New.execute one_word_world (sample_new true).
Proof.
  exact (main_runs_execute one_word_world (VStr "1234567890") false
           (VStr "secret") (VStr "hi") None
           (romantic (TList [ "Rewrite:" ]) (TList [ "Done." ]) "Sweet")
           (sample_new true) eq_refl eq_refl).
Defined.

(** X13. A number that is given but is not a string of ten digits is the
    one thing the later version reports, whatever the token, the message
    and the mode are: nothing is asked, read or sent. *)
Theorem main_reports_phone_number_first (w : world) (number : value)
  (noconfirm : bool) (token message : value) (mode : option string)
  (pd : New.PromptData) :
  New.get_prompt_data w = Ok pd ->
  number <> VNone ->
  (forall s, number = VStr s -> ten_digits isdigit_char s = false) ->
  New.main w number noconfirm token message mode false
  = ([ Print "Error occurred: Invalid phone number" ], Ok tt).
Proof.
  intros Hpd Hnum Hbad.
  apply (new_main_init_fails w number noconfirm token message mode pd
           (Exception "Invalid phone number") Hpd Hnum).
  unfold New.init. rewrite new_get_phone_number_spec.
  destruct number as [ | s | z | b ]; try reflexivity.
  simpl. now rewrite (Hbad s eq_refl).
Qed.

Lemma main_reports_phone_number_first_witness :
  New.main one_word_world (VStr "12345") true VNone VNone (Some "FUNNY") false
  = ([ Print "Error occurred: Invalid phone number" ], Ok tt).
Proof.
  apply (main_reports_phone_number_first one_word_world (VStr "12345") true
           VNone VNone (Some "FUNNY")
           (romantic (TList [ "Rewrite:" ]) (TList [ "Done." ]) "Sweet")).
  - reflexivity.
  - discriminate.
  - intros s H. inversion H. reflexivity.
Defined.



(** X15. Without a number and without --show-modes the later version
    asks nothing, reads nothing and sends nothing, whatever the other
    arguments are; when the template loads, all it does is print "Phone
    number is required.". *)
Theorem main_requires_number (w : world) (noconfirm : bool)
  (token message : value) (mode : option string) :
  let out := New.main w VNone noconfirm token message mode false in
  dispatched (trace out) = false
  /\ existsb is_ask (trace out) = false
  /\ existsb is_input (trace out) = false
  /\ (forall pd,
         New.get_prompt_data w = Ok pd ->
         out = ([ Print "Phone number is required." ], Ok tt)).
Proof.
  unfold New.main.
  destruct (New.get_prompt_data w) as [ pd | e ]; repeat split.
  intros pd H. discriminate H.
Qed.

Lemma main_requires_number_witness :
  New.main one_word_world VNone false (VStr "secret") (VStr "hi") None false
  = ([ Print "Phone number is required." ], Ok tt).
Proof.
  exact (proj2 (proj2 (proj2
           (main_requires_number one_word_world false (VStr "secret")
              (VStr "hi") None)))
           (romantic (TList [ "Rewrite:" ]) (TList [ "Done." ]) "Sweet")
           eq_refl).
Defined.

(** ** The dispatch *)

Lemma new_send_message_run (w : world) (self : New.WingmanGPT)
  (response : string) :
  New.send_message w self response
  = ([ Run (osascript (New.prepared_response response)
              (New.phone_number self)) ],
     match subprocess_run w
             (osascript (New.prepared_response response)
                (New.phone_number self)) true with
     | None => Ok tt
     | Some err =>
         Raise (Exception ("Failed to send message: " ++ nl ++ nl ++ err))
     end).
Proof.
  unfold New.send_message, run, catch, throw.
  change (("osascript -e 'tell application " ++ dq ++ "Messages" ++ dq
           ++ " to send ")
          ++ New.prepared_response response ++ " to buddy " ++ dq
          ++ New.phone_number self ++ dq ++ "'")
    with (osascript (New.prepared_response response) (New.phone_number self)).
  destruct (subprocess_run w _ true); reflexivity.
Qed.

Lemma old_send_message_run (w : world) (self : Old.WingmanGPT)
  (response : string) :
  Old.send_message w self response
  = ([ Run (osascript (Old.prepared_response response)
              (Old.phone_number self)) ],
     match subprocess_run w
             (osascript (Old.prepared_response response)
                (Old.phone_number self)) false with
     | None => Ok tt
     | Some err => Raise (Foreign err)
     end).
Proof. reflexivity. Qed.

Lemma accepted (answer : string) :
  answer = "y" \/ answer = "Y" -> negb (lower answer =? "y") = false.
Proof. intros [ -> | -> ]; reflexivity. Qed.

(** X16. With a completion in hand, the later version hands the shell
    one command, the osascript line around the prepared body and the
    phone number, and then reports: "Message Sent." when the shell
    returns, the failure with its cause when it raises. With --noconfirm
    it does so at once; with a confirmation, after showing the message and
    reading the answer "y" or "Y". *)
Theorem dispatch_outcome (w : world) (self : New.WingmanGPT)
  (t : list event) (response : string) :
  New.get_response w self = (t, Ok response) ->
  let command :=
    osascript (New.prepared_response response) (New.phone_number self) in
  let report :=
    match subprocess_run w command true with
    | None => "Message Sent."
    | Some err =>
        "Failed to send message. " ++ nl ++ nl ++ "Failed to send message: "
        ++ nl ++ nl ++ err
    end in
  (New.wants_to_confirm self = false ->
   New.execute w self = ((t ++ [ Run command; Print report ])%list, Ok tt))
  /\ (forall answer,
         New.wants_to_confirm self = true ->
         stdin w = Some answer ->
         answer = "y" \/ answer = "Y" ->
         New.execute w self
         = ((t ++ [ Print ("********" ++ nl ++ "Message: " ++ response ++ nl
                           ++ "********");
                    Input "Send message? (y/n): ";
                    Run command;
                    Print report ])%list,
            Ok tt)).
Proof.
  intros Hget command report. split.
  - intro Hwants. unfold New.execute, New.confirmation.
    rewrite Hget, Hwants. unfold seq, catch, ret, print.
    rewrite new_send_message_run. fold command. unfold report.
    destruct (subprocess_run w command true); cbn;
      rewrite ?app_nil_r, <- ?app_assoc; reflexivity.
  - intros answer Hwants Hin Hyes.
    unfold New.execute, New.confirmation, input.
    rewrite Hget, Hwants, Hin. unfold seq, catch, ret, print.
    rewrite (accepted answer Hyes), new_send_message_run.
    fold command. unfold report.
    destruct (subprocess_run w command true); cbn;
      rewrite ?app_nil_r, <- ?app_assoc; reflexivity.
Qed.

Lemma dispatch_outcome_witness :
  New.execute refusing_world (sample_new false)
  = ([ Ask "secret" scenario_prompt;
       Run (osascript (dq ++ "hello there" ++ dq) "1234567890");
       Print ("Failed to send message. " ++ nl ++ nl
              ++ "Failed to send message: " ++ nl ++ nl ++ "exit status 1") ],
     Ok tt)
  /\ New.execute refusing_world (sample_new true)
     = ([ Ask "secret" scenario_prompt;
          Print ("********" ++ nl ++ "Message: hello there" ++ nl
                 ++ "********");
          Input "Send message? (y/n): ";
          Run (osascript (dq ++ "hello there" ++ dq) "1234567890");
          Print ("Failed to send message. " ++ nl ++ nl
                 ++ "Failed to send message: " ++ nl ++ nl
                 ++ "exit status 1") ],
        Ok tt).
Proof.
  split.
  - exact (proj1 (dispatch_outcome refusing_world (sample_new false)
                    [ Ask "secret" scenario_prompt ] "hello there" eq_refl)
             eq_refl).
  - exact (proj2 (dispatch_outcome refusing_world (sample_new true)
                    [ Ask "secret" scenario_prompt ] "hello there" eq_refl)
             "y" eq_refl eq_refl (or_introl eq_refl)).
Defined.

(** X17. With a completion in hand and the answer "y" or "Y", the
    earlier version hands the shell the same osascript line, without
    asking it to check the exit status, and reports "Message Sent." when
    the call returns and "Failed to send message." when it raises. *)
Theorem earlier_dispatch_outcome (w : world) (self : Old.WingmanGPT)
  (t : list event) (response answer : string) :
  Old.get_response w self = (t, Ok response) ->
  Old.wants_to_confirm self = true ->
  stdin w = Some answer ->
  answer = "y" \/ answer = "Y" ->
  let command :=
    osascript (Old.prepared_response response) (Old.phone_number self) in
  Old.execute w self
  = ((t ++ [ Print ("********" ++ nl ++ "Message: " ++ response ++ nl
                    ++ "********");
             Input "Send message? (y/n): ";
             Run command;
             Print match subprocess_run w command false with
                   | None => "Message Sent."
                   | Some _ => "Failed to send message."
                   end ])%list,
     Ok tt).
Proof.
  intros Hget Hwants Hin Hyes command.
  unfold Old.execute, Old.confirmation, input.
  rewrite Hget, Hwants, Hin. unfold seq, catch, ret, print.
  rewrite (accepted answer Hyes), old_send_message_run. fold command.
  destruct (subprocess_run w command false); cbn;
    rewrite ?app_nil_r, <- ?app_assoc; reflexivity.
Qed.

Lemma earlier_dispatch_outcome_witness :
  Old.execute refusing_world sample_old
  = ([ Ask "secret" scenario_prompt;
       Print ("********" ++ nl ++ "Message: hello there" ++ nl ++ "********");
       Input "Send message? (y/n): ";
       Run (osascript (dq ++ "hello there" ++ dq) "1234567890");
       Print "Failed to send message." ],
     Ok tt).
Proof.
  exact (earlier_dispatch_outcome refusing_world sample_old
           [ Ask "secret" scenario_prompt ] "hello there" "y" eq_refl eq_refl
           eq_refl (or_introl eq_refl)).
Defined.

(** X18. When the chat service raises, both versions print its error and
    "Failed to get response from ChatGPT API" and return: the operator is
    not asked and nothing is sent. *)
Theorem completion_failure_stops (w : world) (err : string) :
  (forall self : New.WingmanGPT,
      let token := replace "010" EmptyString (New.token self) in
      chatbot_ask w token (New.get_prompt self) = inl err ->
      New.execute w self
      = ([ Ask token (New.get_prompt self);
           Print err;
           Print "Failed to get response from ChatGPT API" ],
         Ok tt))
  /\ (forall (self : Old.WingmanGPT) (PROMPT : string),
         let token := replace "010" EmptyString (Old.token self) in
         Old.get_prompt self = Ok PROMPT ->
         chatbot_ask w token PROMPT = inl err ->
         Old.execute w self
         = ([ Ask token PROMPT;
              Print err;
              Print "Failed to get response from ChatGPT API" ],
            Ok tt)).
Proof.
  split.
  - intros self token H.
    unfold New.execute, New.get_response, ask. fold token. rewrite H.
    reflexivity.
  - intros self PROMPT token HP H.
    unfold Old.execute, Old.get_response, ask, lift. rewrite HP.
    unfold seq, catch, ret, print. fold token. rewrite H. reflexivity.
Qed.

Lemma completion_failure_stops_witness :
  New.execute failing_world (sample_new true)
  = ([ Ask "secret" scenario_prompt;
       Print "no network";
       Print "Failed to get response from ChatGPT API" ],
     Ok tt).
Proof.
  exact (proj1 (completion_failure_stops failing_world "no network")
           (sample_new true) eq_refl).
Defined.

(** X19. The earlier version cannot take a prefix given as a list: the
    concatenation raises a TypeError before the chat service is asked,
    and the run prints it with "Failed to get response from ChatGPT API"
    and returns. *)
Theorem earlier_version_rejects_list_prefix (w : world)
  (self : Old.WingmanGPT) (l : list string) :
  Old.PREFIX (Old.prompt_data self) = TList l ->
  Old.execute w self
  = ([ Print ("can only concatenate str (not " ++ dq ++ "list" ++ dq
              ++ ") to str");
       Print "Failed to get response from ChatGPT API" ],
     Ok tt).
Proof.
  intro H. unfold Old.execute, Old.get_response, Old.get_prompt.
  rewrite H. reflexivity.
Qed.

Lemma earlier_version_rejects_list_prefix_witness :
  Old.execute one_word_world
    {| Old.phone_number := "1234567890";
       Old.token := "secret";
       Old.message := "hi";
       Old.wants_to_confirm := true;
       Old.prompt_data :=
         {| Old.PREFIX := TList [ "Rewrite:" ];
            Old.SUFFIX := TList [ "Done." ];
            Old.MODES := [];
            Old.DEFAULT_MODE := "ROMANTIC" |};
       Old.mode_modification := "make it romantic" |}
  = ([ Print ("can only concatenate str (not " ++ dq ++ "list" ++ dq
              ++ ") to str");
       Print "Failed to get response from ChatGPT API" ],
     Ok tt).
Proof.
  apply (earlier_version_rejects_list_prefix one_word_world _
           [ "Rewrite:" ]).
  reflexivity.
Defined.

(** X20. In the earlier version the flag --confirm changes nothing:
    every object that [__init__] builds asks for a confirmation, and the
    run is the same with the flag and without it. *)
Theorem earlier_version_always_confirms (w : world) (number : value)
  (confirm : bool) (token message : value) (mode : option string) :
  (forall self,
      Old.init w number confirm token message mode = Ok self ->
      Old.wants_to_confirm self = true)
  /\ Old.main w number confirm token message mode
     = Old.main w number (negb confirm) token message mode.
Proof.
  split.
  - intro self. unfold Old.init.
    destruct (Old.get_phone_number number); simpl; [ | discriminate ].
    destruct (Old.get_token w token); simpl; [ | discriminate ].
    destruct (Old.get_message w message); simpl; [ | discriminate ].
    destruct (Old.get_prompt_data w) as [ pd | ]; simpl; [ | discriminate ].
    destruct (Old.get_mode_modification pd mode); simpl; [ | discriminate ].
    intro H. inversion H; subst. simpl. now destruct confirm.
  - unfold Old.main.
    assert (H : Old.init w number confirm token message mode
                = Old.init w number (negb confirm) token message mode)
      by (unfold Old.init; now destruct confirm).
    now rewrite H.
Qed.

Lemma earlier_version_always_confirms_witness :
  Old.wants_to_confirm sample_old = true.
Proof.
  exact (proj1 (earlier_version_always_confirms
                  (sample_world
                     (romantic_json (TStr "Rewrite:") (TStr "Done.") None)
                     "n")
                  (VStr "1234567890") false (VStr "secret") (VStr "hi") None)
           sample_old eq_refl).
Defined.

(** ** The shape of a run *)

Lemma count_prints {A} (kind : event -> bool) (f : A -> string)
  (l : list A) :
  (forall line, kind (Print line) = false) ->
  count kind (map (fun x => Print (f x)) l) = 0.
Proof.
  intro H. unfold count. induction l as [ | x l IH ]; simpl.
  - reflexivity.
  - now rewrite H.
Qed.

Lemma disciplined_print (line : string) : disciplined [ Print line ].
Proof. unfold disciplined. cbn. repeat split; auto. discriminate. Qed.

Ltac settle :=
  unfold disciplined; cbn; repeat split; auto;
  try discriminate; intros _; eauto.

Lemma new_execute_disciplined (w : world) (self : New.WingmanGPT) :
  disciplined (trace (New.execute w self)).
Proof.
  unfold trace, New.execute, New.get_response, New.confirmation,
    New.send_message, ask, input, run, seq, catch, ret, print, throw.
  walk; settle.
Qed.

Lemma old_execute_disciplined (w : world) (self : Old.WingmanGPT) :
  disciplined (trace (Old.execute w self)).
Proof.
  unfold trace, Old.execute, Old.get_response, Old.confirmation,
    Old.send_message, ask, input, run, seq, catch, ret, print, throw, lift.
  walk; settle.
Qed.

(** X21. In every run of either version, whatever the arguments and the
    collaborators do, the chat service is asked at most once, the operator
    at most once and the shell is handed at most one command; and a run
    that hands a command to the shell opened with the request to the chat
    service. *)
Theorem run_disciplined (w : world) (number : value) (flag : bool)
  (token message : value) (mode : option string) :
  (forall show : bool,
      disciplined (trace (New.main w number flag token message mode show)))
  /\ disciplined (trace (Old.main w number flag token message mode)).
Proof.
  split.
  - intro show. unfold New.main.
    destruct (New.get_prompt_data w) as [ pd | e ] eqn:Hpd;
      [ | apply disciplined_print ].
    destruct show.
    { rewrite show_modes_prints. unfold disciplined, trace, dispatched.
      cbn [fst]. unfold count. cbn [filter is_ask is_input is_run existsb orb].
      fold (count is_ask
              (map (fun m => Print (tab ++ New.NAME m ++ ": "
                                    ++ New.DESCRIPTION m))
                 (New.MODES pd))).
      fold (count is_input
              (map (fun m => Print (tab ++ New.NAME m ++ ": "
                                    ++ New.DESCRIPTION m))
                 (New.MODES pd))).
      fold (count is_run
              (map (fun m => Print (tab ++ New.NAME m ++ ": "
                                    ++ New.DESCRIPTION m))
                 (New.MODES pd))).
      rewrite !count_prints by reflexivity. rewrite prints_not_run.
      repeat split; auto. discriminate. }
    assert (Hrun : forall r : result New.WingmanGPT,
               disciplined
                 (trace (catch (tgpt <~ lift r ;; New.execute w tgpt)
                           (fun e => print ("Error occurred: "
                                            ++ str_exn e))))).
    { intros [ self | e ]; [ | apply disciplined_print ].
      unfold lift, seq, catch.
      pose proof (new_execute_returns w self) as Hret.
      pose proof (new_execute_disciplined w self) as Hd.
      destruct (New.execute w self) as [t r]. simpl in Hret. subst r.
      exact Hd. }
    destruct number; [ apply disciplined_print | apply Hrun .. ].
  - unfold Old.main.
    destruct (Old.init w number flag token message mode) as [ self | e ];
      [ | apply disciplined_print ].
    unfold lift, seq, catch.
    pose proof (old_execute_returns w self) as Hret.
    pose proof (old_execute_disciplined w self) as Hd.
    destruct (Old.execute w self) as [t r]. simpl in Hret. subst r.
    exact Hd.
Qed.

(** ** Edges of a run *)

Lemma slice_ends_short (s : string) :
  String.length s <= 2 -> slice s 1 (-1) = EmptyString.
Proof.
  destruct s as [ | a [ | b [ | c r ] ] ]; simpl String.length;
    try reflexivity.
  lia.
Qed.

(** X22. A completion of at most two characters, or no completion at
    all, becomes the empty text, and the later version still sends it:
    with --noconfirm the shell is handed the osascript line with an empty
    body. *)
Theorem short_completion_sends_empty_body (w : world)
  (self : New.WingmanGPT) (messages : list string) :
  let token := replace "010" EmptyString (New.token self) in
  let command := osascript (dq ++ dq) (New.phone_number self) in
  chatbot_ask w token (New.get_prompt self) = inr messages ->
  String.length (last messages EmptyString) <= 2 ->
  New.wants_to_confirm self = false ->
  subprocess_run w command true = None ->
  New.execute w self
  = ([ Ask token (New.get_prompt self); Run command; Print "Message Sent." ],
     Ok tt).
Proof.
  intros token command Hask Hshort Hwants Hrun.
  assert (Hget : New.get_response w self
                 = ([ Ask token (New.get_prompt self) ], Ok EmptyString)).
  { unfold New.get_response, ask, seq, ret. fold token. rewrite Hask.
    rewrite last_message_last, (slice_ends_short _ Hshort). reflexivity. }
  unfold New.execute, New.confirmation. rewrite Hget, Hwants.
  unfold seq, catch, ret, print. rewrite new_send_message_run.
  change (osascript (New.prepared_response EmptyString)
            (New.phone_number self)) with command.
  rewrite Hrun. reflexivity.
Qed.

Lemma short_completion_sends_empty_body_witness :
  New.execute (token_file_world "secret") (sample_new false)
  = ([ Ask "secret" scenario_prompt;
       Run (osascript (dq ++ dq) "1234567890");
       Print "Message Sent." ],
     Ok tt).
Proof.
  apply (short_completion_sends_empty_body (token_file_world "secret")
           (sample_new false) []).
  - reflexivity.
  - simpl. lia.
  - reflexivity.
  - reflexivity.
Defined.

(** X23. When prompts.json is missing and the number is not a string of
    ten digits, the two versions report different errors: the later one
    loads the template first and reports the missing file, the earlier
    one validates the number first and reports the number. *)
Theorem versions_report_in_different_order (w : world) (number : value)
  (flag : bool) (token message : value) (mode : option string) :
  prompts_file w = None ->
  (forall s, number = VStr s -> ten_digits isdigit_char s = false) ->
  New.main w number flag token message mode false
  = ([ Print "Error occurred: prompts.json does not exist" ], Ok tt)
  /\ Old.main w number flag token message mode
     = ([ Print "Error occurred: Invalid phone number" ], Ok tt).
Proof.
  intros Hfile Hbad. split.
  - unfold New.main, New.get_prompt_data. now rewrite Hfile.
  - unfold Old.main, Old.init. rewrite old_get_phone_number_spec.
    destruct number as [ | s | z | b ]; try reflexivity.
    simpl. now rewrite (Hbad s eq_refl).
Qed.

Lemma versions_report_in_different_order_witness :
  New.main (token_file_world "secret") (VStr "12345") false VNone
    (VStr "hi") None false
  = ([ Print "Error occurred: prompts.json does not exist" ], Ok tt)
  /\ Old.main (token_file_world "secret") (VStr "12345") false VNone
       (VStr "hi") None
     = ([ Print "Error occurred: Invalid phone number" ], Ok tt).
Proof.
  apply (versions_report_in_different_order (token_file_world "secret")
           (VStr "12345") false VNone (VStr "hi") None).
  - reflexivity.
  - intros s H. inversion H. reflexivity.
Defined.

(** X24. When the input ends at the confirmation, nothing is sent: both
    versions show the message, ask, and report a failure to send, the
    later one with the cause. *)
Theorem end_of_input_sends_nothing (w : world) :
  stdin w = None ->
  (forall (self : New.WingmanGPT) (t : list event) (response : string),
      New.wants_to_confirm self = true ->
      New.get_response w self = (t, Ok response) ->
      New.execute w self
      = ((t ++ [ Print ("********" ++ nl ++ "Message: " ++ response ++ nl
                        ++ "********");
                 Input "Send message? (y/n): ";
                 Print ("Failed to send message. " ++ nl ++ nl
                        ++ "EOF when reading a line") ])%list,
         Ok tt))
  /\ (forall (self : Old.WingmanGPT) (t : list event) (response : string),
         Old.wants_to_confirm self = true ->
         Old.get_response w self = (t, Ok response) ->
         Old.execute w self
         = ((t ++ [ Print ("********" ++ nl ++ "Message: " ++ response ++ nl
                           ++ "********");
                    Input "Send message? (y/n): ";
                    Print "Failed to send message." ])%list,
            Ok tt)).
Proof.
  intro Hin. split; intros self t response Hwants Hget.
  - unfold New.execute, New.confirmation, input.
    rewrite Hget, Hwants, Hin. unfold seq, catch, ret, print. cbn.
    now rewrite ?app_nil_r.
  - unfold Old.execute, Old.confirmation, input.
    rewrite Hget, Hwants, Hin. unfold seq, catch, ret, print. cbn.
    now rewrite ?app_nil_r.
Qed.

Lemma end_of_input_sends_nothing_witness :
  New.execute (token_file_world "secret") (sample_new true)
  = ([ Ask "secret" scenario_prompt;
       Print ("********" ++ nl ++ "Message: " ++ nl ++ "********");
       Input "Send message? (y/n): ";
       Print ("Failed to send message. " ++ nl ++ nl
              ++ "EOF when reading a line") ],
     Ok tt).
Proof.
  exact (proj1 (end_of_input_sends_nothing (token_file_world "secret")
                  eq_refl)
           (sample_new true) [ Ask "secret" scenario_prompt ] EmptyString
           eq_refl eq_refl).
Defined.
